(** * Pivotal Tracker source connector: pagination, slices, cursor, discovery

    A shallow embedding of
    [source_pivotal_tracker/source.py] and the properties of its
    paginator, record extractor, slice generator, cursor tracker and
    project discovery. *)

From Stdlib Require Import ZArith Ascii String List Bool Lia Permutation Sorted.
From Stdlib Require Import Decimal DecimalString DecimalZ.
From stdpp Require Import base option list gmap strings.

Set Warnings "-register-all".

Local Open Scope string_scope.
Local Open Scope list_scope.
Local Open Scope Z_scope.

(** ** Python values

    The values that the connector handles come out of [response.json()]
    and of the persisted state: JSON documents.  Objects are Python dicts,
    which keep the insertion order of their keys, so a dict is an
    association list with pairwise distinct keys.  JSON numbers with a
    fractional part are outside the model. *)

Inductive value : Type :=
| VNone
| VBool (b : bool)
| VInt (z : Z)
| VStr (s : string)
| VList (l : list value)
| VDict (d : list (string * value)).

Definition dict : Type := list (string * value).

(** The exceptions (all subclasses of [Exception]) that the modelled code
    can raise.  [TransportError] stands for whatever the HTTP collaborator
    raises: connection errors, HTTP status errors, undecodable bodies. *)

Inductive exn : Type :=
| KeyError (key : string)
| TypeError
| ValueError
| StopIteration
| TransportError (msg : string).

Inductive result (A : Type) : Type :=
| Ok (a : A)
| Raise (e : exn).

Arguments Ok {A} a.
Arguments Raise {A} e.

#[global] Instance result_ret : MRet result := fun A a => Ok a.
#[global] Instance result_bind : MBind result := fun A B f m =>
  match m with
  | Ok a => f a
  | Raise e => Raise e
  end.

(** ** Dict primitives *)

Module Dict.

(** [d.get(k)] on the underlying store. *)
Fixpoint lookup (k : string) (d : dict) : option value :=
  match d with
  | [] => None
  | (k', v) :: d' => if String.eqb k k' then Some v else lookup k d'
  end.

(** [k in d] *)
Definition mem (k : string) (d : dict) : bool :=
  match lookup k d with Some _ => true | None => false end.

(** [d[k] = v]: an existing key keeps its position, a new key goes last. *)
Fixpoint set (k : string) (v : value) (d : dict) : dict :=
  match d with
  | [] => [(k, v)]
  | (k', v') :: d' =>
      if String.eqb k k' then (k', v) :: d' else (k', v') :: set k v d'
  end.

(** [d.get(k, default)] *)
Definition get (k : string) (default : value) (d : dict) : value :=
  match lookup k d with Some v => v | None => default end.

(** [d[k]] *)
Definition getitem (k : string) (d : dict) : result value :=
  match lookup k d with Some v => Ok v | None => Raise (KeyError k) end.

Definition keys (d : dict) : list string := map fst d.

End Dict.

(** ** Python operators on values *)

(** Truth value testing, as in [if x] and [x if c else y]. *)
Definition truthy (v : value) : bool :=
  match v with
  | VNone => false
  | VBool b => b
  | VInt z => negb (z =? 0)
  | VStr s => negb (String.eqb s "")
  | VList l => match l with [] => false | _ => true end
  | VDict d => match d with [] => false | _ => true end
  end.

(** [a == b].  [bool] is a subclass of [int]: [True == 1]. *)
Fixpoint py_eq (a b : value) {struct a} : bool :=
  match a, b with
  | VNone, VNone => true
  | VBool x, VBool y => Bool.eqb x y
  | VBool x, VInt y => Z.b2z x =? y
  | VInt x, VBool y => x =? Z.b2z y
  | VInt x, VInt y => x =? y
  | VStr s, VStr t => String.eqb s t
  | VList l, VList m =>
      (fix go (l m : list value) {struct l} : bool :=
         match l, m with
         | [], [] => true
         | x :: l', y :: m' => py_eq x y && go l' m'
         | _, _ => false
         end) l m
  | VDict d, VDict e =>
      (length d =? length e)%nat &&
      (fix go (d : list (string * value)) {struct d} : bool :=
         match d with
         | [] => true
         | (k, v) :: d' =>
             match Dict.lookup k e with
             | Some w => py_eq v w
             | None => false
             end && go d'
         end) d
  | _, _ => false
  end.

(** [a > b].  Strings compare lexicographically by code point, numbers
    by value, lists lexicographically on their first unequal elements;
    every other combination raises [TypeError]. *)
Fixpoint py_gt (a b : value) {struct a} : result bool :=
  match a, b with
  | VStr s, VStr t => Ok (String.ltb t s)
  | VBool x, VBool y => Ok (Z.b2z y <? Z.b2z x)
  | VBool x, VInt y => Ok (y <? Z.b2z x)
  | VInt x, VBool y => Ok (Z.b2z y <? x)
  | VInt x, VInt y => Ok (y <? x)
  | VList l, VList m =>
      (fix go (l m : list value) {struct l} : result bool :=
         match l, m with
         | [], _ => Ok false
         | _ :: _, [] => Ok true
         | x :: l', y :: m' => if py_eq x y then go l' m' else py_gt x y
         end) l m
  | _, _ => Raise TypeError
  end.

(** [max(a, b)]: the first argument unless the second is greater. *)
Definition py_max (a b : value) : result value :=
  gt ← py_gt b a; mret (if gt : bool then b else a).

(** [container[k]] for a string key [k]. *)
Definition py_getitem (container : value) (k : string) : result value :=
  match container with
  | VDict d => Dict.getitem k d
  | _ => Raise TypeError
  end.

(** [sub in s] on strings: substring test. *)
Fixpoint is_prefix (p s : string) : bool :=
  match p, s with
  | EmptyString, _ => true
  | String a p', String b s' => Ascii.eqb a b && is_prefix p' s'
  | String _ _, EmptyString => false
  end.

Fixpoint is_substring (p s : string) : bool :=
  is_prefix p s ||
  match s with
  | EmptyString => false
  | String _ s' => is_substring p s'
  end.

(** [k in container] for a string key [k]. *)
Definition py_contains (k : string) (container : value) : result bool :=
  match container with
  | VDict d => Ok (Dict.mem k d)
  | VList l => Ok (existsb (py_eq (VStr k)) l)
  | VStr s => Ok (is_substring k s)
  | _ => Raise TypeError
  end.

(** Iterating a value with [for x in v]: a list gives its elements, a dict
    its keys, a string its characters. *)
Fixpoint chars (s : string) : list value :=
  match s with
  | EmptyString => []
  | String c s' => VStr (String c EmptyString) :: chars s'
  end.

Definition py_iter (v : value) : result (list value) :=
  match v with
  | VList l => Ok l
  | VDict d => Ok (map VStr (Dict.keys d))
  | VStr s => Ok (chars s)
  | _ => Raise TypeError
  end.

(** [str(v)], as an f-string formats a value, on ASCII text.  A string
    formats as itself; inside a list or dict it is quoted as [repr] does:
    between single quotes, or between double quotes when it holds a
    single quote and no double quote, with the quote character and the
    backslash escaped, tab, newline and carriage return as their letter,
    and the other control characters in hexadecimal. *)
Definition single_quote : ascii := ascii_of_N 39.
Definition double_quote : ascii := ascii_of_N 34.
Definition backslash : ascii := ascii_of_N 92.

Definition hex_digit (n : N) : ascii :=
  if (n <? 10)%N then ascii_of_N (48 + n) else ascii_of_N (87 + n).

Fixpoint has_char (c : ascii) (s : string) : bool :=
  match s with
  | EmptyString => false
  | String c' s' => Ascii.eqb c c' || has_char c s'
  end.

Definition repr_char (quote c : ascii) : string :=
  let n := N_of_ascii c in
  if Ascii.eqb c quote || Ascii.eqb c backslash
  then String backslash (String c EmptyString)
  else if (n =? 9)%N then String backslash "t"
  else if (n =? 10)%N then String backslash "n"
  else if (n =? 13)%N then String backslash "r"
  else if (n <? 32)%N || (n =? 127)%N
  then String backslash
         (String "x" (String (hex_digit (n / 16))
                        (String (hex_digit (n mod 16)) EmptyString)))
  else String c EmptyString.

Fixpoint repr_chars (quote : ascii) (s : string) : string :=
  match s with
  | EmptyString => EmptyString
  | String c s' => repr_char quote c +:+ repr_chars quote s'
  end.

Definition repr_str (s : string) : string :=
  let quote :=
    if has_char single_quote s && negb (has_char double_quote s)
    then double_quote else single_quote in
  String quote (repr_chars quote s +:+ String quote EmptyString).

Definition str_of_int (z : Z) : string := NilZero.string_of_int (Z.to_int z).

Fixpoint join (sep : string) (parts : list string) : string :=
  match parts with
  | [] => EmptyString
  | [part] => part
  | part :: rest => part +:+ sep +:+ join sep rest
  end.

Fixpoint py_repr (v : value) : string :=
  match v with
  | VNone => "None"
  | VBool b => if b then "True" else "False"
  | VInt z => str_of_int z
  | VStr s => repr_str s
  | VList l =>
      "[" +:+ join ", "
                ((fix go (l : list value) : list string :=
                    match l with
                    | [] => []
                    | x :: l' => py_repr x :: go l'
                    end) l) +:+ "]"
  | VDict d =>
      "{" +:+ join ", "
                ((fix go (d : list (string * value)) : list string :=
                    match d with
                    | [] => []
                    | (k, x) :: d' => (repr_str k +:+ ": " +:+ py_repr x) :: go d'
                    end) d) +:+ "}"
  end.

Definition py_str (v : value) : string :=
  match v with
  | VStr s => s
  | _ => py_repr v
  end.

(** [int(s)] on a string of Latin-1 characters, as header values are:
    optional surrounding whitespace (the ASCII one, next line U+0085 and
    no-break space U+00A0), an optional sign, then decimal digits that
    single underscores may separate (the interpreter's cap on the number
    of digits aside). *)
Definition is_space (c : ascii) : bool :=
  let n := N_of_ascii c in
  ((9 <=? n) && (n <=? 13) || (n =? 32) || (n =? 133) || (n =? 160))%N.

Definition digit (c : ascii) : option Z :=
  let n := N_of_ascii c in
  if ((48 <=? n) && (n <=? 57))%N then Some (Z.of_N n - 48) else None.

Fixpoint lstrip (cs : list ascii) : list ascii :=
  match cs with
  | c :: cs' => if is_space c then lstrip cs' else cs
  | [] => []
  end.

Definition strip (cs : list ascii) : list ascii :=
  rev (lstrip (rev (lstrip cs))).

Fixpoint digits (acc : Z) (after_digit : bool) (cs : list ascii) : option Z :=
  match cs with
  | [] => if after_digit then Some acc else None
  | c :: cs' =>
      if Ascii.eqb c "_"%char
      then (if after_digit then digits acc false cs' else None)
      else match digit c with
           | Some d => digits (10 * acc + d) true cs'
           | None => None
           end
  end.

Definition py_int (s : string) : result Z :=
  let cs := strip (list_ascii_of_string s) in
  let parsed :=
    match cs with
    | c :: cs' =>
        if Ascii.eqb c "-"%char then Z.opp <$> digits 0 false cs'
        else if Ascii.eqb c "+"%char then digits 0 false cs'
        else digits 0 false cs
    | [] => None
    end in
  match parsed with
  | Some z => Ok z
  | None => Raise ValueError
  end.

(** ** Generators

    A generator that is consumed once and ends: it yields items, then
    either returns or raises.  [next] takes the first outcome. *)

Inductive gen (A : Type) : Type :=
| Stop
| Throw (e : exn)
| Yield (a : A) (rest : gen A).

Arguments Stop {A}.
Arguments Throw {A} e.
Arguments Yield {A} a rest.

Fixpoint gen_of_list {A} (l : list A) : gen A :=
  match l with
  | [] => Stop
  | a :: l' => Yield a (gen_of_list l')
  end.

(** What [list(g)] collects before the generator ends, and how it ends. *)
Fixpoint items {A} (g : gen A) : list A :=
  match g with
  | Yield a rest => a :: items rest
  | _ => []
  end.

Fixpoint outcome {A} (g : gen A) : option exn :=
  match g with
  | Stop => None
  | Throw e => Some e
  | Yield _ rest => outcome rest
  end.

(** [next(g)] *)
Definition next {A} (g : gen A) : result A * gen A :=
  match g with
  | Stop => (Raise StopIteration, Stop)
  | Throw e => (Raise e, Stop)
  | Yield a rest => (Ok a, rest)
  end.

(** ** HTTP responses

    [response.headers] is a case-insensitive dict: its store is keyed by
    the lower-cased header name, and a failed lookup raises [KeyError] on
    that lower-cased name.  [response.json()] either returns the decoded
    body or raises. *)

Definition lower_ascii (c : ascii) : ascii :=
  let n := N_of_ascii c in
  if ((65 <=? n) && (n <=? 90))%N then ascii_of_N (n + 32) else c.

Fixpoint lower (s : string) : string :=
  match s with
  | EmptyString => EmptyString
  | String c s' => String (lower_ascii c) (lower s')
  end.

Module Headers.

Definition contains (name : string) (h : gmap string string) : bool :=
  bool_decide (is_Some (h !! lower name)).

Definition getitem (name : string) (h : gmap string string) : result string :=
  match h !! lower name with
  | Some v => Ok v
  | None => Raise (KeyError (lower name))
  end.

(** The store built from received [(name, value)] pairs. *)
Definition of_list (l : list (string * string)) : gmap string string :=
  foldl (fun h kv => <[lower kv.1 := kv.2]> h) ∅ l.

End Headers.

Record Response : Type := {
  headers : gmap string string;
  json : result value
}.

(** ** class PivotalTrackerStream *)

Module PivotalTrackerStream.

Definition next_page_token (response : Response) : result (option dict) :=
  let headers := headers response in
  if negb (Headers.contains "X-Tracker-Pagination-Total" headers)
  then Ok None
  else
    page_size ← Headers.getitem "X-Tracker-Pagination-Limit" headers ≫= py_int;
    records_returned ← Headers.getitem "X-Tracker-Pagination-Returned" headers ≫= py_int;
    current_offset ← Headers.getitem "X-Tracker-Pagination-Offset" headers ≫= py_int;
    if records_returned <? page_size
    then Ok None
    else Ok (Some [("offset", VInt (current_offset + page_size))]).

Definition request_params (stream_state : dict) (stream_slice : option dict)
    (next_page_token : option dict) : result dict :=
  let params : dict := [] in
  match next_page_token with
  | Some token =>
      if truthy (VDict token)
      then offset ← Dict.getitem "offset" token;
           Ok (Dict.set "offset" offset params)
      else Ok params
  | None => Ok params
  end.

Definition parse_response (response : Response) : gen value :=
  match json response ≫= py_iter with
  | Ok records => gen_of_list records
  | Raise e => Throw e
  end.

End PivotalTrackerStream.

(** ** classes Projects and Project *)

Module Projects.

Definition path : string := "projects".

End Projects.

Module Project.

Definition path (project_id : value) : string :=
  "projects/" +:+ py_str project_id.

End Project.

(** ** class ProjectBasedStream *)

Module ProjectBasedStream.

Fixpoint stream_slices (project_ids : list value) : gen dict :=
  match project_ids with
  | [] => Stop
  | project_id :: rest =>
      Yield [("project_id", project_id)] (stream_slices rest)
  end.

(** [path]: [stream_slice] is [None] when the caller gives none. *)
Definition path (subpath : string) (stream_slice : option dict) : result string :=
  match stream_slice with
  | Some stream_slice =>
      project_id ← Dict.getitem "project_id" stream_slice;
      Ok ("projects/" +:+ py_str project_id +:+ "/" +:+ subpath)
  | None => Raise TypeError
  end.

End ProjectBasedStream.

(** ** class IncrementalPivotalStream

    [cursor_field], [cursor_filter] and [subpath] are class attributes
    that the subclasses fix; [_cursor_value] is the watermark. *)

Module IncrementalPivotalStream.

Record t : Type := {
  subpath : string;
  cursor_filter : string;
  cursor_field : string;
  project_ids : list value;
  _cursor_value : value
}.

Definition with_cursor_value (self : t) (v : value) : t :=
  {| subpath := subpath self;
     cursor_filter := cursor_filter self;
     cursor_field := cursor_field self;
     project_ids := project_ids self;
     _cursor_value := v |}.

(** The [state] property. *)
Definition state (self : t) : dict :=
  if truthy (_cursor_value self)
  then [(cursor_field self, _cursor_value self)]
  else [].

(** The [state] setter. *)
Definition set_state (self : t) (value : dict) : t :=
  with_cursor_value self
    (Dict.get (cursor_field self) (VStr "1970-01-01T00:00:00") value).

Definition request_params (self : t) (stream_state : dict)
    (stream_slice : option dict) (next_page_token : option dict) : result dict :=
  params ← PivotalTrackerStream.request_params stream_state stream_slice next_page_token;
  Ok (Dict.set (cursor_filter self) (Dict.get (cursor_field self) VNone stream_state) params).

(** The statement of [read_records] after its [yield]. *)
Definition advance (self : t) (record : value) : result t :=
  c ← py_getitem record (cursor_field self);
  m ← py_max c (_cursor_value self);
  Ok (with_cursor_value self m).

(** Where the generator of [read_records] takes up again when it is
    asked for the next record: after the [yield] of the record it is
    suspended on, if any. *)
Definition resume (self : t) (suspended : option value) : result t :=
  match suspended with
  | Some record => advance self record
  | None => Ok self
  end.

(** [for record in self.read_records(...)], run to the end of the
    generator.  [upstream] is the generator [super().read_records(...)].
    Each record comes with the stream as the consumer finds it on
    receiving the record; the pass ends with the last stream and the
    exception that ended it, if any. *)
Fixpoint read_records_from (self : t) (suspended : option value)
    (upstream : gen value) : list (value * t) * (t * option exn) :=
  match resume self suspended with
  | Raise e => ([], (self, Some e))
  | Ok self' =>
      match upstream with
      | Stop => ([], (self', None))
      | Throw e => ([], (self', Some e))
      | Yield record rest =>
          let '(seen, last) := read_records_from self' (Some record) rest in
          ((record, self') :: seen, last)
      end
  end.

Definition read_records (self : t) (upstream : gen value)
    : list (value * t) * (t * option exn) :=
  read_records_from self None upstream.

End IncrementalPivotalStream.

Module Stories.
Definition __init__ (project_ids : list value) : IncrementalPivotalStream.t :=
  {| IncrementalPivotalStream.subpath := "stories";
     IncrementalPivotalStream.cursor_filter := "updated_after";
     IncrementalPivotalStream.cursor_field := "updated_at";
     IncrementalPivotalStream.project_ids := project_ids;
     IncrementalPivotalStream._cursor_value := VStr "" |}.
End Stories.

Module Activity.

Definition __init__ (project_ids : list value) : IncrementalPivotalStream.t :=
  {| IncrementalPivotalStream.subpath := "activity";
     IncrementalPivotalStream.cursor_filter := "occurred_after";
     IncrementalPivotalStream.cursor_field := "occurred_at";
     IncrementalPivotalStream.project_ids := project_ids;
     IncrementalPivotalStream._cursor_value := VStr "" |}.

(** The body of the loop in [parse_response], up to its [yield]. *)
Definition lift_project_id (record : value) : result value :=
  has ← py_contains "project" record;
  if has : bool
  then project ← py_getitem record "project";
       id ← py_getitem project "id";
       match record with
       | VDict d => Ok (VDict (Dict.set "project_id" id d))
       | _ => Raise TypeError
       end
  else Ok record.

Fixpoint lift_all (records : gen value) : gen value :=
  match records with
  | Stop => Stop
  | Throw e => Throw e
  | Yield record rest =>
      match lift_project_id record with
      | Ok record' => Yield record' (lift_all rest)
      | Raise e => Throw e
      end
  end.

Definition parse_response (response : Response) : gen value :=
  lift_all (PivotalTrackerStream.parse_response response).

End Activity.

(** ** classes ProjectMemberships, Labels, Releases and Epics *)

Module ProjectMemberships.
Definition subpath : string := "memberships".
End ProjectMemberships.

Module Labels.
Definition subpath : string := "labels".
End Labels.

Module Releases.
Definition subpath : string := "releases".
End Releases.

Module Epics.
Definition subpath : string := "epics".
End Epics.

(** ** class PivotalAuthenticator *)

Module PivotalAuthenticator.

Record t : Type := { _token : value }.

Definition get_auth_header (self : t) : dict :=
  [("X-TrackerToken", _token self)].

End PivotalAuthenticator.

(** ** class SourcePivotalTracker *)

Module SourcePivotalTracker.

(** The two streams that discovery reads. *)
Inductive http_stream : Type :=
| Projects (authenticator : PivotalAuthenticator.t)
| Project (authenticator : PivotalAuthenticator.t) (project_id : value).

(** What [logger.error(msg, err)] appends to the log. *)
Definition log : Type := list (string * exn).

(** The stream objects that [streams] returns: the [Projects] stream, a
    project based stream with its subpath and project ids, or an
    incremental one. *)
Inductive Stream : Type :=
| Http (stream : http_stream)
| ProjectBased (subpath : string) (project_ids : list value)
    (authenticator : PivotalAuthenticator.t)
| Incremental (stream : IncrementalPivotalStream.t)
    (authenticator : PivotalAuthenticator.t).

Definition _get_authenticator (config : dict) : PivotalAuthenticator.t :=
  {| PivotalAuthenticator._token := Dict.get "api_token" VNone config |}.

Section Source.

(** [stream.read_records(SyncMode.full_refresh)] of the host
    framework, for the streams above. *)
Variable read_records : http_stream -> gen value.

Definition _check_project_availability (auth : PivotalAuthenticator.t)
    (project_id : value) (logger : log) : bool * log :=
  let project := Project auth project_id in
  match fst (next (read_records project)) with
  | Raise err => (false, logger ++ [("Unable to fetch project info: %s", err)])
  | Ok _ => (true, logger)
  end.

(** The loop [for record in records] of [_generate_project_ids]. *)
Fixpoint collect_project_ids (auth : PivotalAuthenticator.t)
    (records : gen value) (project_ids : list value) (logger : log)
    : result (list value) * log :=
  match records with
  | Stop => (Ok project_ids, logger)
  | Throw e => (Raise e, logger)
  | Yield record rest =>
      match py_getitem record "id" with
      | Raise e => (Raise e, logger)
      | Ok project_id =>
          let '(available, logger') :=
            _check_project_availability auth project_id logger in
          collect_project_ids auth rest
            (if available then project_ids ++ [project_id] else project_ids)
            logger'
      end
  end.

Definition _generate_project_ids (auth : PivotalAuthenticator.t)
    (logger : log) : result (list value) * log :=
  let projects := Projects auth in
  let records := read_records projects in
  collect_project_ids auth records [] logger.

Definition check_connection (config : dict) (logger : log)
    : result (bool * value) * log :=
  let auth := _get_authenticator config in
  let '(ids, logger') := _generate_project_ids auth logger in
  (_ ← ids; Ok (true, VNone), logger').

Definition streams (config : dict) (logger : log)
    : result (list Stream) * log :=
  let auth := _get_authenticator config in
  let '(ids, logger') := _generate_project_ids auth logger in
  (project_ids ← ids;
   Ok [Http (Projects auth);
       Incremental (Stories.__init__ project_ids) auth;
       ProjectBased ProjectMemberships.subpath project_ids auth;
       ProjectBased Labels.subpath project_ids auth;
       ProjectBased Releases.subpath project_ids auth;
       ProjectBased Epics.subpath project_ids auth;
       Incremental (Activity.__init__ project_ids) auth],
   logger').

End Source.

End SourcePivotalTracker.

(** ** The host runner's page loop *)

Module HttpStream.

(** Modelled from the spec: the page loop of the host framework's
    [HttpStream.read_records], which the connector's source does not
    contain.  For one slice it builds each request from
    [request_params] with the stream state handed to the pass, the slice
    and the current page token, and asks [next_page_token] of the
    response for the token of the next request, until there is none
    (spec 4.1, 5 and 6).  [responses] are the server's answers in order;
    the result lists the parameters of the requests built. *)
Fixpoint page_requests (self : IncrementalPivotalStream.t) (stream_state : dict)
    (stream_slice : option dict) (token : option dict)
    (responses : list Response) : list (result dict) :=
  let params :=
    IncrementalPivotalStream.request_params self stream_state stream_slice token in
  params ::
  match params, responses with
  | Ok _, response :: rest =>
      match PivotalTrackerStream.next_page_token response with
      | Ok (Some token') =>
          page_requests self stream_state stream_slice (Some token') rest
      | _ => []
      end
  | _, _ => []
  end.

End HttpStream.

(** ** String order *)

Definition smax (a b : string) : string := if String.ltb a b then b else a.

(** [m] is the lexicographic maximum of the strings [l]. *)
Definition is_maximum (m : string) (l : list string) : Prop :=
  In m l /\ Forall (fun x => String.leb x m = true) l.

(** The cursor values of records, where every record has a string there. *)
Fixpoint cursors (cursor_field : string) (records : list value) : option (list string) :=
  match records with
  | [] => Some []
  | record :: rest =>
      match py_getitem record cursor_field with
      | Ok (VStr c) => cons c <$> cursors cursor_field rest
      | _ => None
      end
  end.

(** ** Reading pagination headers *)

(** The value of a header, if the response carries it. *)
Definition header (name : string) (response : Response) : option string :=
  headers response !! lower name.

(** The value of a header that is present and holds an integer. *)
Definition header_int (name : string) (response : Response) : option Z :=
  match header name response with
  | Some s => match py_int s with Ok z => Some z | Raise _ => None end
  | None => None
  end.

Definition consistent (response : Response) : Prop :=
  is_Some (header_int "X-Tracker-Pagination-Limit" response) /\
  is_Some (header_int "X-Tracker-Pagination-Returned" response) /\
  is_Some (header_int "X-Tracker-Pagination-Offset" response).

Definition response_of (hs : list (string * string)) (body : value) : Response :=
  {| headers := Headers.of_list hs; json := Ok body |}.

(** ** Activity records *)

(** [out] is the dict [d] with a top-level [project_id] field holding
    [id]: the field is there, every other key reads as before, and the
    keys keep their order, a new one going last. *)
Definition adds_project_id (d : dict) (id : value) (out : value) : Prop :=
  exists d',
    out = VDict d' /\
    Dict.lookup "project_id" d' = Some id /\
    (forall k, k <> "project_id" -> Dict.lookup k d' = Dict.lookup k d) /\
    Dict.keys d' =
      if Dict.mem "project_id" d then Dict.keys d
      else Dict.keys d ++ ["project_id"].

(** What the Activity parser yields for the record [d]. *)
Definition lifted (d : dict) (out : value) : Prop :=
  match Dict.lookup "project" d with
  | Some project =>
      exists id, py_getitem project "id" = Ok id /\ adds_project_id d id out
  | None => out = VDict d
  end.

(** The [project] entry of [d], if there is one, is a mapping that
    carries an [id]. *)
Definition project_has_id (d : dict) : bool :=
  match Dict.lookup "project" d with
  | Some (VDict project) => Dict.mem "id" project
  | Some _ => false
  | None => true
  end.

(** ** Watermarks *)

(** The watermark moved from [a] to [b] without going back. *)
Definition advances (a b : value) : Prop :=
  exists s t, a = VStr s /\ b = VStr t /\ String.leb s t = true.

(** The watermarks that a consumer of a read pass finds, in order: one
    on receiving each record, and the one the pass leaves. *)
Definition watermarks (pass : list (value * IncrementalPivotalStream.t) *
                              (IncrementalPivotalStream.t * option exn)) : list value :=
  map (fun seen => IncrementalPivotalStream._cursor_value (snd seen)) (fst pass)
  ++ [IncrementalPivotalStream._cursor_value (fst (snd pass))].

(** ** Discovery *)

Section Probes.

Variable read_records : SourcePivotalTracker.http_stream -> gen value.
Variable auth : PivotalAuthenticator.t.

(** The probe of one project: the first record of its detail read. *)
Definition probe (project_id : value) : result value :=
  fst (next (read_records (SourcePivotalTracker.Project auth project_id))).

(** The probe gave a record. *)
Definition accessible (project_id : value) : bool :=
  match probe project_id with Ok _ => true | Raise _ => false end.

(** The log lines of the failed probes, in the order of the ids. *)
Fixpoint failures (project_ids : list value) : SourcePivotalTracker.log :=
  match project_ids with
  | [] => []
  | project_id :: rest =>
      match probe project_id with
      | Ok _ => failures rest
      | Raise e => ("Unable to fetch project info: %s", e) :: failures rest
      end
  end.

End Probes.

(** The ids of listed project records, where every record has one. *)
Fixpoint listed_ids (records : list value) : option (list value) :=
  match records with
  | [] => Some []
  | record :: rest =>
      match py_getitem record "id" with
      | Ok project_id => cons project_id <$> listed_ids rest
      | Raise _ => None
      end
  end.

(** Servers for the examples.  The first lists the projects 1, 2 and 3
    and refuses the detail of project 2; the second lists two projects
    and refuses the detail of both; the third fails on the listing. *)

Definition server_refusing_2 (stream : SourcePivotalTracker.http_stream) : gen value :=
  match stream with
  | SourcePivotalTracker.Projects _ =>
      gen_of_list [VDict [("id", VInt 1)]; VDict [("id", VInt 2)]; VDict [("id", VInt 3)]]
  | SourcePivotalTracker.Project _ (VInt 2) =>
      Throw (TransportError "403 Client Error: Forbidden")
  | SourcePivotalTracker.Project _ project_id =>
      Yield (VDict [("id", project_id)]) Stop
  end.

Definition server_refusing_all (stream : SourcePivotalTracker.http_stream) : gen value :=
  match stream with
  | SourcePivotalTracker.Projects _ =>
      gen_of_list [VDict [("id", VInt 1)]; VDict [("id", VInt 2)]]
  | SourcePivotalTracker.Project _ _ =>
      Throw (TransportError "403 Client Error: Forbidden")
  end.

Definition server_down (stream : SourcePivotalTracker.http_stream) : gen value :=
  Throw (TransportError "Connection refused").

(** ** Generators that go on *)

(** The generator that yields [l] and then goes on as [tail]. *)
Fixpoint gen_then {A} (l : list A) (tail : gen A) : gen A :=
  match l with
  | [] => tail
  | a :: l' => Yield a (gen_then l' tail)
  end.

(** The project ids that a stream of the catalog is sliced by. *)
Definition project_ids_of (stream : SourcePivotalTracker.Stream)
    : option (list value) :=
  match stream with
  | SourcePivotalTracker.Http _ => None
  | SourcePivotalTracker.ProjectBased _ project_ids _ => Some project_ids
  | SourcePivotalTracker.Incremental stream _ =>
      Some (IncrementalPivotalStream.project_ids stream)
  end.

Definition subpath_of (stream : SourcePivotalTracker.Stream) : option string :=
  match stream with
  | SourcePivotalTracker.Http _ => None
  | SourcePivotalTracker.ProjectBased subpath _ _ => Some subpath
  | SourcePivotalTracker.Incremental stream _ =>
      Some (IncrementalPivotalStream.subpath stream)
  end.

(** * Properties *)

Section Paginator.

Import PivotalTrackerStream.

Lemma contains_header name response :
  Headers.contains name (headers response) = true <-> is_Some (header name response).
Proof. unfold Headers.contains, header. apply bool_decide_eq_true. Qed.

Lemma contains_header_false name response :
  Headers.contains name (headers response) = false <-> header name response = None.
Proof.
  unfold Headers.contains, header. rewrite bool_decide_eq_false.
  rewrite <- eq_None_not_Some. tauto.
Qed.

Lemma read_header_int name response z :
  header_int name response = Some z ->
  Headers.getitem name (headers response) ≫= py_int = Ok z.
Proof.
  unfold header_int, header, Headers.getitem.
  destruct (headers response !! lower name) as [s|]; [|discriminate].
  simpl. destruct (py_int s); congruence.
Qed.

Lemma read_header_int_None name response :
  header_int name response = None ->
  exists e, Headers.getitem name (headers response) ≫= py_int = Raise e.
Proof.
  unfold header_int, header, Headers.getitem.
  destruct (headers response !! lower name) as [s|]; simpl; [|eauto].
  destruct (py_int s); [discriminate|eauto].
Qed.

(** C2: a response without the pagination-total header gives no next
    page, whatever its other headers; with the total header and the
    limit, returned and offset headers holding the integers [limit],
    [returned] and [offset], [returned < limit] gives no next page and
    [returned = limit] gives the token [{"offset": offset + limit}]. *)
Theorem next_page_token_cases (response : Response) :
  (header "X-Tracker-Pagination-Total" response = None ->
     next_page_token response = Ok None) /\
  (forall limit returned offset : Z,
     is_Some (header "X-Tracker-Pagination-Total" response) ->
     header_int "X-Tracker-Pagination-Limit" response = Some limit ->
     header_int "X-Tracker-Pagination-Returned" response = Some returned ->
     header_int "X-Tracker-Pagination-Offset" response = Some offset ->
     (returned < limit -> next_page_token response = Ok None) /\
     (returned = limit ->
        next_page_token response = Ok (Some [("offset", VInt (offset + limit))]))).
Proof.
  split.
  - intros Habsent. apply contains_header_false in Habsent.
    unfold next_page_token. now rewrite Habsent.
  - intros limit returned offset Htotal Hl Hr Ho.
    apply contains_header in Htotal.
    unfold next_page_token. rewrite Htotal. cbn [negb].
    rewrite (read_header_int _ _ _ Hl), (read_header_int _ _ _ Hr),
      (read_header_int _ _ _ Ho).
    cbn [mbind result_bind].
    split; intros Hcmp.
    + apply Z.ltb_lt in Hcmp. now rewrite Hcmp.
    + subst returned. now rewrite Z.ltb_irrefl.
Qed.

Lemma next_page_token_cases_witness :
  next_page_token
    (response_of [("X-Tracker-Pagination-Total", "250");
                  ("X-Tracker-Pagination-Limit", "100");
                  ("X-Tracker-Pagination-Returned", "100");
                  ("X-Tracker-Pagination-Offset", "100")] (VList []))
  = Ok (Some [("offset", VInt 200)]) /\
  next_page_token
    (response_of [("X-Tracker-Pagination-Total", "250");
                  ("X-Tracker-Pagination-Limit", "100");
                  ("X-Tracker-Pagination-Returned", "50");
                  ("X-Tracker-Pagination-Offset", "200")] (VList []))
  = Ok None /\
  next_page_token
    (response_of [("Content-Type", "application/json");
                  ("X-Tracker-Pagination-Limit", "100")] (VList []))
  = Ok None.
Proof.
  split; [|split].
  - apply (proj2 (next_page_token_cases _) 100 100 100);
      [vm_compute; eauto | reflexivity .. ].
  - apply (proj2 (next_page_token_cases _) 100 50 200);
      [vm_compute; eauto | reflexivity | reflexivity | reflexivity | lia].
  - apply (proj1 (next_page_token_cases _)). reflexivity.
Defined.

(** C9: with the pagination-total header present, [next_page_token]
    reads the limit, returned and offset headers without a guard: a
    missing one raises [KeyError], a non-integer one [ValueError], in
    that order of reading, and the call returns exactly when all three
    are present with integer values. *)
Theorem next_page_token_unguarded (response : Response) :
  is_Some (header "X-Tracker-Pagination-Total" response) ->
  let read name := Headers.getitem name (headers response) ≫= py_int in
  (forall name, header name response = None ->
     read name = Raise (KeyError (lower name))) /\
  (forall name s, header name response = Some s -> py_int s = Raise ValueError ->
     read name = Raise ValueError) /\
  (forall e, read "X-Tracker-Pagination-Limit" = Raise e ->
     next_page_token response = Raise e) /\
  (forall e, is_Some (header_int "X-Tracker-Pagination-Limit" response) ->
     read "X-Tracker-Pagination-Returned" = Raise e ->
     next_page_token response = Raise e) /\
  (forall e, is_Some (header_int "X-Tracker-Pagination-Limit" response) ->
     is_Some (header_int "X-Tracker-Pagination-Returned" response) ->
     read "X-Tracker-Pagination-Offset" = Raise e ->
     next_page_token response = Raise e) /\
  ((exists e, next_page_token response = Raise e) <-> ~ consistent response) /\
  ((exists token, next_page_token response = Ok token) <-> consistent response).
Proof.
  intros Htotal read. apply contains_header in Htotal.
  assert (Hnpt : next_page_token response =
            (page_size ← read "X-Tracker-Pagination-Limit";
             records_returned ← read "X-Tracker-Pagination-Returned";
             current_offset ← read "X-Tracker-Pagination-Offset";
             if records_returned <? page_size then Ok None
             else Ok (Some [("offset", VInt (current_offset + page_size))]))).
  { unfold next_page_token. now rewrite Htotal. }
  assert (Hread : forall name,
            match header_int name response with
            | Some z => read name = Ok z
            | None => exists e, read name = Raise e
            end).
  { intros name. destruct (header_int name response) eqn:E.
    - now apply read_header_int.
    - now apply read_header_int_None. }
  pose proof (Hread "X-Tracker-Pagination-Limit") as Hl.
  pose proof (Hread "X-Tracker-Pagination-Returned") as Hr.
  pose proof (Hread "X-Tracker-Pagination-Offset") as Ho.
  split_and!.
  - intros name Hnone. subst read. cbv beta.
    unfold Headers.getitem. unfold header in Hnone. now rewrite Hnone.
  - intros name s Hsome Hint. subst read. cbv beta.
    unfold Headers.getitem. unfold header in Hsome. rewrite Hsome.
    exact Hint.
  - intros e He. rewrite Hnpt, He. reflexivity.
  - intros e [l El] He. rewrite El in Hl. rewrite Hnpt, Hl, He. reflexivity.
  - intros e [l El] [r Er] He. rewrite El in Hl. rewrite Er in Hr.
    rewrite Hnpt, Hl, Hr, He. reflexivity.
  - split.
    + intros [e He] (Hcl & Hcr & Hco).
      destruct Hcl as [l El], Hcr as [r Er], Hco as [o Eo].
      rewrite El in Hl. rewrite Er in Hr. rewrite Eo in Ho.
      rewrite Hnpt, Hl, Hr, Ho in He. cbn in He.
      destruct (r <? l); discriminate.
    + intros Hnot. unfold consistent in Hnot. rewrite Hnpt.
      destruct (header_int "X-Tracker-Pagination-Limit" response) as [l|].
      2:{ destruct Hl as [e ->]. eauto. }
      destruct (header_int "X-Tracker-Pagination-Returned" response) as [r|].
      2:{ destruct Hr as [e Hr]. rewrite Hl, Hr. eauto. }
      destruct (header_int "X-Tracker-Pagination-Offset" response) as [o|].
      2:{ destruct Ho as [e Ho]. rewrite Hl, Hr, Ho. eauto. }
      exfalso. apply Hnot. eauto.
  - split.
    + intros [token Htok]. unfold consistent. rewrite Hnpt in Htok.
      destruct (header_int "X-Tracker-Pagination-Limit" response) as [l|].
      2:{ destruct Hl as [e Hl]. rewrite Hl in Htok. discriminate. }
      destruct (header_int "X-Tracker-Pagination-Returned" response) as [r|].
      2:{ destruct Hr as [e Hr]. rewrite Hl, Hr in Htok. discriminate. }
      destruct (header_int "X-Tracker-Pagination-Offset" response) as [o|].
      2:{ destruct Ho as [e Ho]. rewrite Hl, Hr, Ho in Htok. discriminate. }
      eauto.
    + intros (Hcl & Hcr & Hco).
      destruct Hcl as [l El], Hcr as [r Er], Hco as [o Eo].
      rewrite El in Hl. rewrite Er in Hr. rewrite Eo in Ho.
      rewrite Hnpt, Hl, Hr, Ho. cbn. destruct (r <? l); eauto.
Qed.

Lemma next_page_token_unguarded_witness :
  next_page_token
    (response_of [("X-Tracker-Pagination-Total", "250");
                  ("X-Tracker-Pagination-Returned", "100");
                  ("X-Tracker-Pagination-Offset", "0")] (VList []))
  = Raise (KeyError "x-tracker-pagination-limit") /\
  next_page_token
    (response_of [("X-Tracker-Pagination-Total", "250");
                  ("X-Tracker-Pagination-Limit", "100");
                  ("X-Tracker-Pagination-Returned", "many");
                  ("X-Tracker-Pagination-Offset", "0")] (VList []))
  = Raise ValueError.
Proof.
  split.
  - refine (proj1 (proj2 (proj2 (next_page_token_unguarded _ _))) _ _);
      [vm_compute; eauto | reflexivity].
  - refine (proj1 (proj2 (proj2 (proj2 (next_page_token_unguarded _ _)))) _ _ _);
      [vm_compute; eauto | vm_compute; eauto | reflexivity].
Defined.

End Paginator.

Section Dicts.

Lemma lookup_set_eq k v d : Dict.lookup k (Dict.set k v d) = Some v.
Proof.
  induction d as [|[k' v'] d IH]; simpl.
  - now rewrite String.eqb_refl.
  - destruct (String.eqb k k') eqn:E; simpl; rewrite E; [reflexivity | exact IH].
Qed.

Lemma lookup_set_ne k k' v d :
  k' <> k -> Dict.lookup k' (Dict.set k v d) = Dict.lookup k' d.
Proof.
  intros Hne. induction d as [|[k0 v0] d IH]; simpl.
  - apply String.eqb_neq in Hne. now rewrite Hne.
  - destruct (String.eqb k k0) eqn:E; simpl.
    + apply String.eqb_eq in E. subst k0.
      apply String.eqb_neq in Hne. now rewrite Hne.
    + now rewrite IH.
Qed.

Lemma keys_set k v d :
  Dict.keys (Dict.set k v d) =
    if Dict.mem k d then Dict.keys d else Dict.keys d ++ [k].
Proof.
  unfold Dict.mem. induction d as [|[k0 v0] d IH]; simpl; [reflexivity|].
  destruct (String.eqb k k0) eqn:E; simpl; [reflexivity|].
  rewrite IH. now destruct (Dict.lookup k d).
Qed.

Lemma set_adds_project_id d id :
  adds_project_id d id (VDict (Dict.set "project_id" id d)).
Proof.
  exists (Dict.set "project_id" id d). split_and!.
  - reflexivity.
  - apply lookup_set_eq.
  - intros k Hk. now apply lookup_set_ne.
  - apply keys_set.
Qed.

End Dicts.

Section Slices.

Import ProjectBasedStream.

(** C7: for [N] project ids, [stream_slices] yields [N] slices and then
    returns; the [k]-th slice is [{"project_id": p}] for the [k]-th id
    [p]; no ids, no slices. *)
Theorem stream_slices_one_per_project (project_ids : list value) :
  outcome (stream_slices project_ids) = None /\
  length (items (stream_slices project_ids)) = length project_ids /\
  (forall k : nat,
     items (stream_slices project_ids) !! k =
     (fun p => [("project_id", p)]) <$> project_ids !! k) /\
  stream_slices [] = Stop.
Proof.
  split_and!; [| | |reflexivity].
  - induction project_ids; simpl; auto.
  - induction project_ids; simpl; auto.
  - induction project_ids as [|p ids IH]; intros [|k]; simpl; auto.
Qed.

End Slices.

Section ActivityRecords.

Import Activity.

Lemma lift_project_id_dict d :
  lift_project_id (VDict d) =
  match Dict.lookup "project" d with
  | Some project =>
      id ← py_getitem project "id"; Ok (VDict (Dict.set "project_id" id d))
  | None => Ok (VDict d)
  end.
Proof.
  unfold lift_project_id. cbn [py_contains mbind result_bind].
  unfold Dict.mem. cbn [py_getitem]. unfold Dict.getitem.
  destruct (Dict.lookup "project" d); reflexivity.
Qed.

Lemma lift_project_id_ok d :
  project_has_id d = true ->
  exists out, lift_project_id (VDict d) = Ok out /\ lifted d out.
Proof.
  intros Hid. rewrite lift_project_id_dict. unfold lifted.
  unfold project_has_id, Dict.mem in Hid.
  destruct (Dict.lookup "project" d) as [project|]; [|eauto].
  destruct project as [| | | | |p]; try discriminate.
  cbn [py_getitem]. unfold Dict.getitem.
  destruct (Dict.lookup "id" p) as [id|]; [|discriminate].
  eexists. split; [reflexivity|].
  exists id. split; [reflexivity | apply set_adds_project_id].
Qed.

Lemma lift_project_id_raise d :
  project_has_id d = false ->
  exists e project,
    lift_project_id (VDict d) = Raise e /\
    Dict.lookup "project" d = Some project /\
    e = match project with VDict _ => KeyError "id" | _ => TypeError end.
Proof.
  intros Hid. rewrite lift_project_id_dict.
  unfold project_has_id, Dict.mem in Hid.
  destruct (Dict.lookup "project" d) as [project|]; [|discriminate].
  destruct project as [| | | | |p]; cbn [py_getitem]; eauto.
  unfold Dict.getitem.
  destruct (Dict.lookup "id" p) as [id|]; [discriminate|]. eauto.
Qed.

Lemma lift_all_prefix (records : list dict) (rest : list value) :
  forallb project_has_id records = true ->
  exists outs,
    Forall2 lifted records outs /\
    items (lift_all (gen_of_list ((VDict <$> records) ++ rest))) =
      outs ++ items (lift_all (gen_of_list rest)) /\
    outcome (lift_all (gen_of_list ((VDict <$> records) ++ rest))) =
      outcome (lift_all (gen_of_list rest)).
Proof.
  induction records as [|d records IH]; intros Hall.
  - exists []. split_and!; [constructor | reflexivity | reflexivity].
  - cbn [forallb] in Hall. apply andb_prop in Hall as [Hd Hall].
    destruct (IH Hall) as (outs & Houts & Hitems & Hout).
    destruct (lift_project_id_ok d Hd) as (out & Hlift & Hlifted).
    exists (out :: outs).
    cbn [fmap list_fmap app gen_of_list lift_all]. rewrite Hlift.
    cbn [items outcome].
    split_and!; [now constructor | cbn; now f_equal | exact Hout].
Qed.

Lemma parse_response_json response body :
  json response = Ok (VList body) ->
  parse_response response = lift_all (gen_of_list body).
Proof.
  intros Hj. unfold parse_response, PivotalTrackerStream.parse_response.
  now rewrite Hj.
Qed.

(** C6: the Activity parser yields the records of the body in array
    order; a record with a [project] entry comes out as the input with
    an added top-level [project_id] holding the [id] of that entry, a
    record without one comes out unchanged. *)
Theorem Activity_parse_response_lifts (response : Response)
    (records : list dict) (rest : list value) :
  json response = Ok (VList ((VDict <$> records) ++ rest)) ->
  forallb project_has_id records = true ->
  exists outs tail,
    items (parse_response response) = outs ++ tail /\
    Forall2 lifted records outs /\
    (rest = [] -> tail = [] /\ outcome (parse_response response) = None).
Proof.
  intros Hj Hall. rewrite (parse_response_json _ _ Hj).
  destruct (lift_all_prefix records rest Hall) as (outs & Houts & Hitems & Hout).
  exists outs, (items (lift_all (gen_of_list rest))).
  split_and!; [exact Hitems | exact Houts |].
  intros ->. rewrite Hout. split; reflexivity.
Qed.

Lemma Activity_parse_response_lifts_witness :
  exists outs tail,
    items (parse_response
             (response_of []
                (VList [VDict [("id", VInt 5); ("project", VDict [("id", VInt 42)])];
                        VDict [("id", VInt 6)]]))) = outs ++ tail /\
    Forall2 lifted
      [[("id", VInt 5); ("project", VDict [("id", VInt 42)])]; [("id", VInt 6)]]
      outs /\
    (@nil value = [] -> tail = [] /\
       outcome (parse_response
                  (response_of []
                     (VList [VDict [("id", VInt 5); ("project", VDict [("id", VInt 42)])];
                             VDict [("id", VInt 6)]]))) = None).
Proof.
  apply (Activity_parse_response_lifts _
           [[("id", VInt 5); ("project", VDict [("id", VInt 42)])]; [("id", VInt 6)]]
           []); reflexivity.
Defined.

(** The record of the example, evaluated. *)
Example Activity_parse_response_example :
  items (parse_response
           (response_of []
              (VList [VDict [("id", VInt 5); ("project", VDict [("id", VInt 42)])]])))
  = [VDict [("id", VInt 5); ("project", VDict [("id", VInt 42)]);
            ("project_id", VInt 42)]].
Proof. reflexivity. Qed.

Lemma lift_all_total (records : list dict) :
  outcome (lift_all (gen_of_list (VDict <$> records))) = None <->
  forallb project_has_id records = true.
Proof.
  induction records as [|d records IH]; cbn [fmap list_fmap gen_of_list lift_all forallb].
  - tauto.
  - destruct (project_has_id d) eqn:Hd.
    + destruct (lift_project_id_ok d Hd) as (out & -> & _).
      cbn [outcome andb]. exact IH.
    + destruct (lift_project_id_raise d Hd) as (e & project & -> & _).
      cbn [outcome andb]. split; discriminate.
Qed.

(** C10: the Activity parser is partial: on reaching a record whose
    [project] entry is a mapping without [id], or is no mapping, it
    raises ([KeyError] and [TypeError]) instead of yielding the record;
    on a body of objects it runs to the end exactly when every
    [project] entry is a mapping with an [id]. *)
Theorem Activity_parse_response_partial (response : Response) :
  (forall (before : list dict) (d : dict) (after : list value),
     json response = Ok (VList ((VDict <$> before) ++ VDict d :: after)) ->
     forallb project_has_id before = true ->
     project_has_id d = false ->
     exists e project,
       outcome (parse_response response) = Some e /\
       length (items (parse_response response)) = length before /\
       Dict.lookup "project" d = Some project /\
       e = match project with VDict _ => KeyError "id" | _ => TypeError end) /\
  (forall records : list dict,
     json response = Ok (VList (VDict <$> records)) ->
     (outcome (parse_response response) = None <->
      forallb project_has_id records = true)).
Proof.
  split.
  - intros before d after Hj Hbefore Hd.
    rewrite (parse_response_json _ _ Hj).
    destruct (lift_all_prefix before (VDict d :: after) Hbefore)
      as (outs & Houts & -> & ->).
    destruct (lift_project_id_raise d Hd) as (e & project & Hlift & Hp & He).
    exists e, project. cbn [gen_of_list lift_all]. rewrite Hlift.
    cbn [items outcome].
    split_and!; [reflexivity | | exact Hp | exact He].
    rewrite length_app. cbn. apply Forall2_length in Houts. lia.
  - intros records Hj. rewrite (parse_response_json _ _ Hj).
    apply lift_all_total.
Qed.

Lemma Activity_parse_response_partial_witness :
  (exists e project,
     outcome (parse_response
                (response_of []
                   (VList [VDict [("guid", VStr "a")];
                           VDict [("guid", VStr "b"); ("project", VDict [("name", VStr "p")])];
                           VDict [("guid", VStr "c")]]))) = Some e /\
     length (items (parse_response
                (response_of []
                   (VList [VDict [("guid", VStr "a")];
                           VDict [("guid", VStr "b"); ("project", VDict [("name", VStr "p")])];
                           VDict [("guid", VStr "c")]])))) = 1%nat /\
     Dict.lookup "project" [("guid", VStr "b"); ("project", VDict [("name", VStr "p")])]
       = Some project /\
     e = match project with VDict _ => KeyError "id" | _ => TypeError end) /\
  (exists e project,
     outcome (parse_response
                (response_of [] (VList [VDict [("project", VInt 42)]]))) = Some e /\
     length (items (parse_response
                (response_of [] (VList [VDict [("project", VInt 42)]])))) = 0%nat /\
     Dict.lookup "project" [("project", VInt 42)] = Some project /\
     e = match project with VDict _ => KeyError "id" | _ => TypeError end).
Proof.
  split.
  - apply (proj1 (Activity_parse_response_partial _)
             [[("guid", VStr "a")]]
             [("guid", VStr "b"); ("project", VDict [("name", VStr "p")])]
             [VDict [("guid", VStr "c")]]); reflexivity.
  - apply (proj1 (Activity_parse_response_partial _)
             [] [("project", VInt 42)] []); reflexivity.
Defined.

End ActivityRecords.

Section CursorState.

Import IncrementalPivotalStream.

(** C4: [state] is [{}] on a stream on which no value was recorded, and
    [{cursor_field: watermark}] once the watermark holds a value; setting
    a state that holds a value [v] under the cursor field, [v] not empty
    as every timestamp is, and reading the state back with no record
    read gives [{cursor_field: v}]; setting a state without the cursor
    field puts the watermark at [1970-01-01T00:00:00]. *)
Theorem state_get_set (self : t) :
  (forall ids, state (Stories.__init__ ids) = [] /\
               state (Activity.__init__ ids) = []) /\
  (truthy (_cursor_value self) = true ->
     state self = [(cursor_field self, _cursor_value self)]) /\
  (forall value v,
     Dict.lookup (cursor_field self) value = Some v ->
     truthy v = true ->
     _cursor_value (set_state self value) = v /\
     state (set_state self value) = [(cursor_field self, v)]) /\
  (forall s, s <> "" -> truthy (VStr s) = true) /\
  (forall value,
     Dict.lookup (cursor_field self) value = None ->
     _cursor_value (set_state self value) = VStr "1970-01-01T00:00:00" /\
     state (set_state self value) =
       [(cursor_field self, VStr "1970-01-01T00:00:00")]).
Proof.
  split_and!.
  - intros ids. split; reflexivity.
  - intros Ht. unfold state. now rewrite Ht.
  - intros value v Hv Ht.
    assert (Hset : _cursor_value (set_state self value) = v).
    { unfold set_state, Dict.get. now rewrite Hv. }
    split; [exact Hset|]. unfold state. rewrite Hset, Ht. reflexivity.
  - intros s Hs. cbn [truthy]. apply negb_true_iff.
    now apply String.eqb_neq.
  - intros value Hv.
    assert (Hset : _cursor_value (set_state self value) = VStr "1970-01-01T00:00:00").
    { unfold set_state, Dict.get. now rewrite Hv. }
    split; [exact Hset|]. unfold state. rewrite Hset. reflexivity.
Qed.

Lemma state_get_set_witness :
  state (set_state (Stories.__init__ [VInt 1])
           [("updated_at", VStr "2022-01-01T00:00:00")])
    = [("updated_at", VStr "2022-01-01T00:00:00")] /\
  _cursor_value (set_state (Activity.__init__ [VInt 1]) [])
    = VStr "1970-01-01T00:00:00".
Proof.
  split.
  - refine (proj2 (proj1 (proj2 (proj2 (state_get_set _))) _ _ _ _));
      reflexivity.
  - refine (proj1 (proj2 (proj2 (proj2 (proj2 (state_get_set _)))) _ _)).
    reflexivity.
Defined.

End CursorState.

Section StringOrder.

Lemma ascii_compare_refl a : Ascii.compare a a = Eq.
Proof. unfold Ascii.compare. apply N.compare_refl. Qed.

Lemma ascii_compare_lt_trans a b c :
  Ascii.compare a b = Lt -> Ascii.compare b c = Lt -> Ascii.compare a c = Lt.
Proof.
  unfold Ascii.compare. rewrite !N.compare_lt_iff. lia.
Qed.

Lemma compare_refl s : String.compare s s = Eq.
Proof.
  induction s as [|a s IH]; simpl; [reflexivity|].
  now rewrite ascii_compare_refl.
Qed.

Lemma compare_lt_trans a : forall b c,
  String.compare a b = Lt -> String.compare b c = Lt -> String.compare a c = Lt.
Proof.
  induction a as [|x a IH]; intros [|y b] [|z c]; simpl; try congruence.
  destruct (Ascii.compare x y) eqn:Exy; try discriminate;
    destruct (Ascii.compare y z) eqn:Eyz; try discriminate; intros Hab Hbc.
  - apply Ascii.compare_eq_iff in Exy, Eyz. subst.
    rewrite ascii_compare_refl. eauto.
  - apply Ascii.compare_eq_iff in Exy. subst. now rewrite Eyz.
  - apply Ascii.compare_eq_iff in Eyz. subst. now rewrite Exy.
  - now rewrite (ascii_compare_lt_trans _ _ _ Exy Eyz).
Qed.

Lemma leb_refl s : String.leb s s = true.
Proof. unfold String.leb. now rewrite compare_refl. Qed.

Lemma ltb_leb a b : String.ltb a b = true -> String.leb a b = true.
Proof. unfold String.ltb, String.leb. now destruct (String.compare a b). Qed.

Lemma ltb_false_leb a b : String.ltb a b = false -> String.leb b a = true.
Proof.
  unfold String.ltb, String.leb. rewrite (String.compare_antisym a b).
  now destruct (String.compare b a).
Qed.

Lemma leb_trans a b c :
  String.leb a b = true -> String.leb b c = true -> String.leb a c = true.
Proof.
  unfold String.leb. intros Hab Hbc.
  destruct (String.compare a c) eqn:Eac; try reflexivity.
  rewrite String.compare_antisym in Eac.
  destruct (String.compare c a) eqn:Eca; try discriminate.
  destruct (String.compare a b) eqn:Eab; try discriminate.
  - apply String.compare_eq_iff in Eab. subst b.
    rewrite String.compare_antisym, Eca in Hbc. discriminate.
  - pose proof (compare_lt_trans _ _ _ Eca Eab) as Hcb.
    rewrite String.compare_antisym, Hcb in Hbc. discriminate.
Qed.

Lemma ltb_empty s : String.ltb s "" = false.
Proof. now destruct s. Qed.

Lemma smax_cases a b :
  (smax a b = a \/ smax a b = b) /\
  String.leb a (smax a b) = true /\ String.leb b (smax a b) = true.
Proof.
  unfold smax. destruct (String.ltb a b) eqn:E.
  - split_and!; [now right | now apply ltb_leb | apply leb_refl].
  - split_and!; [now left | apply leb_refl | now apply ltb_false_leb].
Qed.

Lemma fold_smax_is_maximum ts : forall w,
  is_maximum (foldl (fun w c => smax c w) w ts) (w :: ts).
Proof.
  induction ts as [|c ts IH]; intros w; cbn [foldl].
  - split; [now left | constructor; [apply leb_refl | constructor]].
  - destruct (IH (smax c w)) as [Hin Hall].
    destruct (smax_cases c w) as (Hcase & Hc & Hw).
    apply Forall_cons_1 in Hall as [Hm Hall].
    remember (foldl (fun w c => smax c w) (smax c w) ts) as m eqn:Em.
    clear Em. split.
    + destruct Hin as [Hin|Hin].
      * subst m. destruct Hcase as [E|E]; rewrite E; simpl; auto.
      * simpl. auto.
    + constructor; [eapply leb_trans; eassumption|].
      constructor; [eapply leb_trans; eassumption | exact Hall].
Qed.

Lemma is_maximum_unique m m' l l' :
  Permutation l l' -> is_maximum m l -> is_maximum m' l' -> m = m'.
Proof.
  intros Hp [Hin Hall] [Hin' Hall'].
  apply String.leb_antisym.
  - rewrite Forall_forall in Hall'. apply Hall'.
    apply list_elem_of_In. eapply Permutation_in; eassumption.
  - rewrite Forall_forall in Hall. apply Hall.
    apply list_elem_of_In. eapply Permutation_in; [symmetry|]; eassumption.
Qed.

End StringOrder.

Section ReadPass.

Import IncrementalPivotalStream.

Lemma advance_str self record c w :
  _cursor_value self = VStr w ->
  py_getitem record (cursor_field self) = Ok (VStr c) ->
  advance self record = Ok (with_cursor_value self (VStr (smax c w))).
Proof.
  intros Hw Hc. unfold advance. rewrite Hc, Hw. cbn. unfold smax.
  now destruct (String.ltb c w).
Qed.

Lemma cursors_cons cf r rs ts :
  cursors cf (r :: rs) = Some ts ->
  exists c cs,
    py_getitem r cf = Ok (VStr c) /\ cursors cf rs = Some cs /\ ts = c :: cs.
Proof.
  cbn [cursors]. destruct (py_getitem r cf) as [[| | |c| |]|]; try discriminate.
  destruct (cursors cf rs) as [cs|]; [|discriminate].
  intros [= <-]. eauto.
Qed.

Lemma cursors_cons_intro cf r rs c cs :
  py_getitem r cf = Ok (VStr c) -> cursors cf rs = Some cs ->
  cursors cf (r :: rs) = Some (c :: cs).
Proof. intros Hr Hrs. cbn [cursors]. now rewrite Hr, Hrs. Qed.

Lemma cursors_Permutation cf records records' :
  Permutation records records' ->
  forall ts, cursors cf records = Some ts ->
  exists ts', cursors cf records' = Some ts' /\ Permutation ts ts'.
Proof.
  induction 1 as [|r l l' _ IH|r1 r2 l|l l' l'' _ IH1 _ IH2]; intros ts Hts.
  - exists ts. split; [exact Hts | reflexivity].
  - apply cursors_cons in Hts as (c & cs & Hr & Hcs & ->).
    destruct (IH cs Hcs) as (cs' & Hcs' & Hp).
    exists (c :: cs'). split; [now apply cursors_cons_intro | now constructor].
  - apply cursors_cons in Hts as (c1 & cs1 & Hr1 & Hcs1 & ->).
    apply cursors_cons in Hcs1 as (c2 & cs & Hr2 & Hcs & ->).
    exists (c2 :: c1 :: cs).
    split; [now repeat apply cursors_cons_intro | constructor].
  - destruct (IH1 ts Hts) as (ts' & Hts' & Hp1).
    destruct (IH2 ts' Hts') as (ts'' & Hts'' & Hp2).
    exists ts''. split; [exact Hts'' | now transitivity ts'].
Qed.

Lemma read_records_from_strings records : forall ts self suspended self1 w1,
  resume self suspended = Ok self1 ->
  _cursor_value self1 = VStr w1 ->
  cursors (cursor_field self1) records = Some ts ->
  exists seen last,
    read_records_from self suspended (gen_of_list records) = (seen, (last, None)) /\
    map fst seen = records /\
    _cursor_value last = VStr (foldl (fun w c => smax c w) w1 ts) /\
    cursor_field last = cursor_field self1 /\
    Sorted advances (watermarks (seen, (last, None))) /\
    exists rest, watermarks (seen, (last, None)) = VStr w1 :: rest.
Proof.
  induction records as [|r records IH]; intros ts self suspended self1 w1 Hres Hw Hts.
  - injection Hts as <-. exists [], self1.
    cbn [gen_of_list read_records_from]. rewrite Hres.
    unfold watermarks. cbn. rewrite Hw.
    split_and!; try reflexivity; [repeat constructor | eauto].
  - apply cursors_cons in Hts as (c & cs & Hr & Hcs & ->).
    pose proof (advance_str self1 r c w1 Hw Hr) as Hadv.
    destruct (IH cs self1 (Some r) (with_cursor_value self1 (VStr (smax c w1)))
                (smax c w1) Hadv eq_refl Hcs)
      as (seen & last & Hread & Hfst & Hlast & Hcf & Hsorted & rest & Hrest).
    exists ((r, self1) :: seen), last.
    cbn [gen_of_list read_records_from]. rewrite Hres, Hread.
    unfold watermarks in *. cbn [fst snd map app] in *. rewrite Hw.
    split_and!; [reflexivity | now rewrite Hfst | exact Hlast | exact Hcf | | eauto].
    constructor; [exact Hsorted|].
    rewrite Hrest. constructor.
    exists w1, (smax c w1). split_and!; try reflexivity.
    apply (smax_cases c w1).
Qed.

Lemma read_records_strings self w0 records ts :
  _cursor_value self = VStr w0 ->
  cursors (cursor_field self) records = Some ts ->
  exists seen last,
    read_records self (gen_of_list records) = (seen, (last, None)) /\
    map fst seen = records /\
    _cursor_value last = VStr (foldl (fun w c => smax c w) w0 ts) /\
    cursor_field last = cursor_field self /\
    Sorted advances (watermarks (seen, (last, None))).
Proof.
  intros Hw Hts.
  destruct (read_records_from_strings records ts self None self w0 eq_refl Hw Hts)
    as (seen & last & Hread & Hfst & Hlast & Hcf & Hsorted & _).
  exists seen, last. now split_and!.
Qed.

(** C1: a read pass over records that each carry the cursor field, read
    to the end, leaves as watermark the lexicographic maximum of the
    watermark it started with and the cursor values read, in whatever
    order the records arrive; the watermarks that the consumer finds
    during the pass never go back; and after cursor values
    [t2, t1, t3] with [t1 < t2 < t3], read on the empty watermark of a
    new stream or on any watermark not above [t3], the state is
    [{cursor_field: t3}]. *)
Theorem read_records_watermark (self : t) (w0 : string)
    (records : list value) (ts : list string) :
  _cursor_value self = VStr w0 ->
  cursors (cursor_field self) records = Some ts ->
  exists m,
    map fst (fst (read_records self (gen_of_list records))) = records /\
    snd (snd (read_records self (gen_of_list records))) = None /\
    _cursor_value (fst (snd (read_records self (gen_of_list records)))) = VStr m /\
    is_maximum m (w0 :: ts) /\
    (forall records', Permutation records records' ->
       _cursor_value (fst (snd (read_records self (gen_of_list records')))) = VStr m) /\
    Sorted advances (watermarks (read_records self (gen_of_list records))) /\
    (forall t1 t2 t3,
       ts = [t2; t1; t3] ->
       String.ltb t1 t2 = true -> String.ltb t2 t3 = true ->
       w0 = "" \/ String.leb w0 t3 = true ->
       state (fst (snd (read_records self (gen_of_list records))))
         = [(cursor_field self, VStr t3)]).
Proof.
  intros Hw Hts.
  destruct (read_records_strings self w0 records ts Hw Hts)
    as (seen & last & Hread & Hfst & Hlast & Hcf & Hsorted).
  pose proof (fold_smax_is_maximum ts w0) as Hmax.
  exists (foldl (fun w c => smax c w) w0 ts).
  rewrite Hread. cbn [fst snd].
  split_and!; try assumption; try reflexivity.
  - intros records' Hperm.
    destruct (cursors_Permutation _ _ _ Hperm ts Hts) as (ts' & Hts' & Hp).
    destruct (read_records_strings self w0 records' ts' Hw Hts')
      as (seen' & last' & Hread' & _ & Hlast' & _).
    rewrite Hread'. cbn [fst snd]. rewrite Hlast'. f_equal.
    apply (is_maximum_unique _ _ (w0 :: ts') (w0 :: ts)).
    + now constructor.
    + apply fold_smax_is_maximum.
    + exact Hmax.
  - intros t1 t2 t3 -> H12 H23 Hw3.
    assert (String.leb w0 t3 = true) by (destruct Hw3 as [->|]; [now destruct t3 | easy]).
    clear Hw3.
    assert (Hm : foldl (fun w c => smax c w) w0 [t2; t1; t3] = t3).
    { apply (is_maximum_unique _ _ (w0 :: [t2; t1; t3]) (w0 :: [t2; t1; t3]));
        [reflexivity | exact Hmax |].
      split; [simpl; auto|].
      pose proof (ltb_leb _ _ H12). pose proof (ltb_leb _ _ H23).
      repeat constructor; eauto using leb_trans, leb_refl. }
    unfold state. rewrite Hlast, Hcf, Hm.
    destruct t3 as [|a t3]; [now rewrite ltb_empty in H23 | reflexivity].
Qed.

Lemma read_records_watermark_witness :
  exists m,
    map fst (fst (read_records (Stories.__init__ [VInt 1])
      (gen_of_list [VDict [("id", VInt 11); ("updated_at", VStr "2022-02-01T00:00:00")];
                    VDict [("id", VInt 12); ("updated_at", VStr "2022-01-01T00:00:00")];
                    VDict [("id", VInt 13); ("updated_at", VStr "2022-03-01T00:00:00")]])))
    = [VDict [("id", VInt 11); ("updated_at", VStr "2022-02-01T00:00:00")];
       VDict [("id", VInt 12); ("updated_at", VStr "2022-01-01T00:00:00")];
       VDict [("id", VInt 13); ("updated_at", VStr "2022-03-01T00:00:00")]] /\
    snd (snd (read_records (Stories.__init__ [VInt 1])
      (gen_of_list [VDict [("id", VInt 11); ("updated_at", VStr "2022-02-01T00:00:00")];
                    VDict [("id", VInt 12); ("updated_at", VStr "2022-01-01T00:00:00")];
                    VDict [("id", VInt 13); ("updated_at", VStr "2022-03-01T00:00:00")]])))
    = None /\
    _cursor_value (fst (snd (read_records (Stories.__init__ [VInt 1])
      (gen_of_list [VDict [("id", VInt 11); ("updated_at", VStr "2022-02-01T00:00:00")];
                    VDict [("id", VInt 12); ("updated_at", VStr "2022-01-01T00:00:00")];
                    VDict [("id", VInt 13); ("updated_at", VStr "2022-03-01T00:00:00")]]))))
    = VStr m /\
    is_maximum m ["";  "2022-02-01T00:00:00"; "2022-01-01T00:00:00";
                  "2022-03-01T00:00:00"].
Proof.
  destruct (read_records_watermark (Stories.__init__ [VInt 1]) ""
    [VDict [("id", VInt 11); ("updated_at", VStr "2022-02-01T00:00:00")];
     VDict [("id", VInt 12); ("updated_at", VStr "2022-01-01T00:00:00")];
     VDict [("id", VInt 13); ("updated_at", VStr "2022-03-01T00:00:00")]]
    ["2022-02-01T00:00:00"; "2022-01-01T00:00:00"; "2022-03-01T00:00:00"]
    eq_refl eq_refl) as (m & H1 & H2 & H3 & H4 & _).
  exists m. exact (conj H1 (conj H2 (conj H3 H4))).
Defined.

(** The pass of the example, evaluated. *)
Example read_records_example :
  state (fst (snd (read_records (Stories.__init__ [VInt 1])
    (gen_of_list [VDict [("id", VInt 11); ("updated_at", VStr "2022-02-01T00:00:00")];
                  VDict [("id", VInt 12); ("updated_at", VStr "2022-01-01T00:00:00")];
                  VDict [("id", VInt 13); ("updated_at", VStr "2022-03-01T00:00:00")]]))))
  = [("updated_at", VStr "2022-03-01T00:00:00")].
Proof. reflexivity. Qed.

End ReadPass.

Section RequestParams.

Import IncrementalPivotalStream.

Lemma request_params_filter self stream_state stream_slice token params :
  request_params self stream_state stream_slice token = Ok params ->
  Dict.lookup (cursor_filter self) params =
    Some (Dict.get (cursor_field self) VNone stream_state).
Proof.
  unfold request_params.
  destruct (PivotalTrackerStream.request_params stream_state stream_slice token)
    as [base|e]; cbn; [|discriminate].
  intros [= <-]. apply lookup_set_eq.
Qed.

Lemma next_page_token_offset response token :
  PivotalTrackerStream.next_page_token response = Ok (Some token) ->
  exists offset, token = [("offset", VInt offset)].
Proof.
  unfold PivotalTrackerStream.next_page_token.
  destruct (negb _); [discriminate|].
  destruct (Headers.getitem "X-Tracker-Pagination-Limit" _ ≫= py_int) as [l|];
    cbn [mbind result_bind]; [|discriminate].
  destruct (Headers.getitem "X-Tracker-Pagination-Returned" _ ≫= py_int) as [r|];
    cbn [mbind result_bind]; [|discriminate].
  destruct (Headers.getitem "X-Tracker-Pagination-Offset" _ ≫= py_int) as [o|];
    cbn [mbind result_bind]; [|discriminate].
  destruct (r <? l); [discriminate|].
  intros [= <-]. eauto.
Qed.

Lemma page_requests_filter self stream_state stream_slice responses :
  forall token,
    (token = None \/ exists offset, token = Some [("offset", VInt offset)]) ->
    Forall (fun request => exists params,
              request = Ok params /\
              Dict.lookup (cursor_filter self) params =
                Some (Dict.get (cursor_field self) VNone stream_state))
      (HttpStream.page_requests self stream_state stream_slice token responses).
Proof.
  induction responses as [|response rest IH]; intros token Htoken;
    cbn [HttpStream.page_requests];
    assert (Hparams : exists params,
              request_params self stream_state stream_slice token = Ok params)
      by (destruct Htoken as [->|[offset ->]]; eexists; reflexivity);
    destruct Hparams as [params Hparams]; rewrite Hparams;
    (constructor; [eauto using request_params_filter|]).
  - constructor.
  - destruct (PivotalTrackerStream.next_page_token response)
      as [[token'|]|e'] eqn:Enext; try constructor.
    apply IH. right. apply next_page_token_offset in Enext as [offset ->]. eauto.
Qed.

(** C5, as the code has it: the cursor filter parameter of every
    request is the entry of the cursor field in the stream state that
    the read pass was handed, [None] when that state has no such entry;
    it does not depend on the page token or on the watermark of the
    stream, so all pages of one pull carry the same lower bound; handed
    the state of a stream whose watermark is not empty, it is that
    watermark. *)
Theorem request_params_cursor_filter (self : t) (stream_state : dict)
    (stream_slice : option dict) :
  request_params self stream_state stream_slice None =
    Ok [(cursor_filter self, Dict.get (cursor_field self) VNone stream_state)] /\
  (forall token params,
     request_params self stream_state stream_slice token = Ok params ->
     Dict.lookup (cursor_filter self) params =
       Some (Dict.get (cursor_field self) VNone stream_state)) /\
  (forall responses,
     Forall (fun request => exists params,
               request = Ok params /\
               Dict.lookup (cursor_filter self) params =
                 Some (Dict.get (cursor_field self) VNone stream_state))
       (HttpStream.page_requests self stream_state stream_slice None responses)) /\
  (forall v token,
     request_params (with_cursor_value self v) stream_state stream_slice token =
     request_params self stream_state stream_slice token) /\
  (truthy (_cursor_value self) = true ->
     Dict.get (cursor_field self) VNone (state self) = _cursor_value self) /\
  (Dict.lookup (cursor_field self) stream_state = None ->
     Dict.get (cursor_field self) VNone stream_state = VNone) /\
  (forall ids,
     cursor_filter (Stories.__init__ ids) = "updated_after" /\
     cursor_filter (Activity.__init__ ids) = "occurred_after").
Proof.
  split_and!; [| | | | | |intros ids; split; reflexivity].
  - reflexivity.
  - intros token params. apply request_params_filter.
  - intros responses. apply page_requests_filter. now left.
  - reflexivity.
  - intros Ht. unfold state. rewrite Ht. unfold Dict.get. cbn.
    now rewrite String.eqb_refl.
  - intros Hnone. unfold Dict.get. now rewrite Hnone.
Qed.

Lemma request_params_cursor_filter_witness :
  Dict.get "updated_at" VNone
    (state (set_state (Stories.__init__ [VInt 1])
              [("updated_at", VStr "2022-01-01T00:00:00")]))
    = VStr "2022-01-01T00:00:00" /\
  Dict.get "occurred_at" VNone [] = VNone.
Proof.
  split.
  - refine (proj1 (proj2 (proj2 (proj2 (proj2
      (request_params_cursor_filter
         (set_state (Stories.__init__ [VInt 1])
            [("updated_at", VStr "2022-01-01T00:00:00")]) [] None))))) _).
    reflexivity.
  - refine (proj1 (proj2 (proj2 (proj2 (proj2 (proj2
      (request_params_cursor_filter (Activity.__init__ [VInt 1]) [] None)))))) _).
    reflexivity.
Defined.

(** C5 as stated fails when no state was ever recorded: the filter is
    [None], not the epoch default. *)
Lemma request_params_no_state_counterexample :
  request_params (Stories.__init__ [VInt 1]) (state (Stories.__init__ [VInt 1]))
    (Some [("project_id", VInt 1)]) None
    = Ok [("updated_after", VNone)] /\
  request_params (Stories.__init__ [VInt 1]) (state (Stories.__init__ [VInt 1]))
    (Some [("project_id", VInt 1)]) None
    <> Ok [("updated_after", VStr "1970-01-01T00:00:00")].
Proof. split; [reflexivity | discriminate]. Qed.

End RequestParams.

Section Discovery.

Import SourcePivotalTracker.

Variable read_records : http_stream -> gen value.

Lemma check_project_availability_probe auth project_id logger :
  _check_project_availability read_records auth project_id logger =
  (accessible read_records auth project_id,
   logger ++ failures read_records auth [project_id]).
Proof.
  unfold _check_project_availability, accessible. cbn [failures].
  unfold probe. destruct (next _).1; [now rewrite app_nil_r | reflexivity].
Qed.

Lemma collect_project_ids_spec auth (records : gen value) :
  forall ids project_ids logger,
    listed_ids (items records) = Some ids ->
    collect_project_ids read_records auth records project_ids logger =
    (match outcome records with
     | None => Ok (project_ids ++ List.filter (accessible read_records auth) ids)
     | Some e => Raise e
     end,
     logger ++ failures read_records auth ids).
Proof.
  induction records as [|e|record rest IH]; intros ids project_ids logger Hids.
  - injection Hids as <-. cbn. now rewrite !app_nil_r.
  - injection Hids as <-. cbn. now rewrite !app_nil_r.
  - cbn [items listed_ids] in Hids. cbn [collect_project_ids outcome].
    destruct (py_getitem record "id") as [project_id|]; [|discriminate].
    destruct (listed_ids (items rest)) as [ids'|] eqn:Erest; [|discriminate].
    injection Hids as <-.
    rewrite check_project_availability_probe.
    rewrite (IH ids' _ _ eq_refl). cbn [failures List.filter].
    unfold accessible at 1 3.
    destruct (probe read_records auth project_id) as [r|e].
    + rewrite app_nil_r. now rewrite <- app_assoc.
    + now rewrite <- app_assoc.
Qed.

(** C3: when the listing gives the project ids [ids], discovery probes
    each of them and returns those whose probe gave a record, in the
    order of the listing; a probe that raises, or that gives no record,
    leaves its id out and its cause in the log, and discovery goes on
    with the ids after it. *)
Theorem generate_project_ids_accessible (auth : PivotalAuthenticator.t)
    (ids : list value) (logger : log) :
  outcome (read_records (Projects auth)) = None ->
  listed_ids (items (read_records (Projects auth))) = Some ids ->
  _generate_project_ids read_records auth logger =
    (Ok (List.filter (accessible read_records auth) ids),
     logger ++ failures read_records auth ids) /\
  (forall project_id,
     accessible read_records auth project_id = true <->
     exists record rest,
       read_records (Project auth project_id) = Yield record rest) /\
  (forall project_id e,
     read_records (Project auth project_id) = Throw e ->
     accessible read_records auth project_id = false /\
     failures read_records auth [project_id] =
       [("Unable to fetch project info: %s", e)]) /\
  (forall project_id,
     read_records (Project auth project_id) = Stop ->
     accessible read_records auth project_id = false /\
     failures read_records auth [project_id] =
       [("Unable to fetch project info: %s", StopIteration)]).
Proof.
  intros Hout Hids. split_and!.
  - unfold _generate_project_ids.
    rewrite (collect_project_ids_spec auth _ ids [] logger Hids), Hout.
    reflexivity.
  - intros project_id. unfold accessible, probe.
    destruct (read_records (Project auth project_id)) as [|e|record rest]; cbn.
    + split; [discriminate | intros (? & ? & ?); discriminate].
    + split; [discriminate | intros (? & ? & ?); discriminate].
    + split; eauto.
  - intros project_id e He. unfold accessible. cbn [failures]. unfold probe.
    rewrite He. split; reflexivity.
  - intros project_id He. unfold accessible. cbn [failures]. unfold probe.
    rewrite He. split; reflexivity.
Qed.

(** C8: [check_connection] answers [(True, None)] when discovery runs to
    its end, however many of the listed projects are accessible, and
    raises what discovery raises. *)
Theorem check_connection_discovery (config : dict) (logger : log) :
  check_connection read_records config logger =
    (match fst (_generate_project_ids read_records (_get_authenticator config) logger) with
     | Ok _ => Ok (true, VNone)
     | Raise e => Raise e
     end,
     snd (_generate_project_ids read_records (_get_authenticator config) logger)) /\
  (forall ids,
     outcome (read_records (Projects (_get_authenticator config))) = None ->
     listed_ids (items (read_records (Projects (_get_authenticator config)))) = Some ids ->
     fst (check_connection read_records config logger) = Ok (true, VNone)) /\
  (forall e,
     outcome (read_records (Projects (_get_authenticator config))) = Some e ->
     is_Some (listed_ids (items (read_records (Projects (_get_authenticator config))))) ->
     fst (check_connection read_records config logger) = Raise e).
Proof.
  assert (Hcheck : check_connection read_records config logger =
    (match fst (_generate_project_ids read_records (_get_authenticator config) logger) with
     | Ok _ => Ok (true, VNone)
     | Raise e => Raise e
     end,
     snd (_generate_project_ids read_records (_get_authenticator config) logger))).
  { unfold check_connection.
    destruct (_generate_project_ids _ _ _) as [[ids|e] logger']; reflexivity. }
  split_and!.
  - exact Hcheck.
  - intros ids Hout Hids. rewrite Hcheck. unfold _generate_project_ids.
    rewrite (collect_project_ids_spec _ _ ids [] logger Hids), Hout.
    reflexivity.
  - intros e Hout [ids Hids]. rewrite Hcheck. unfold _generate_project_ids.
    rewrite (collect_project_ids_spec _ _ ids [] logger Hids), Hout.
    reflexivity.
Qed.

End Discovery.

Section DiscoveryExamples.

Import SourcePivotalTracker.

Lemma generate_project_ids_accessible_witness :
  _generate_project_ids server_refusing_2
    (_get_authenticator [("api_token", VStr "secret")]) []
  = (Ok [VInt 1; VInt 3],
     [("Unable to fetch project info: %s",
       TransportError "403 Client Error: Forbidden")]).
Proof.
  exact (proj1 (generate_project_ids_accessible server_refusing_2
                  (_get_authenticator [("api_token", VStr "secret")])
                  [VInt 1; VInt 2; VInt 3] [] eq_refl eq_refl)).
Defined.

Lemma check_connection_discovery_witness :
  fst (check_connection server_refusing_all [("api_token", VStr "secret")] [])
    = Ok (true, VNone) /\
  fst (check_connection server_down [("api_token", VStr "secret")] [])
    = Raise (TransportError "Connection refused").
Proof.
  split.
  - exact (proj1 (proj2 (check_connection_discovery server_refusing_all
                           [("api_token", VStr "secret")] []))
             [VInt 1; VInt 2] eq_refl eq_refl).
  - refine (proj2 (proj2 (check_connection_discovery server_down
                            [("api_token", VStr "secret")] []))
              (TransportError "Connection refused") eq_refl _).
    vm_compute. eauto.
Defined.

End DiscoveryExamples.

(** * Further properties of the code *)

Section NextRequest.

Import PivotalTrackerStream.

Lemma next_page_token_consistent response limit returned offset :
  is_Some (header "X-Tracker-Pagination-Total" response) ->
  header_int "X-Tracker-Pagination-Limit" response = Some limit ->
  header_int "X-Tracker-Pagination-Returned" response = Some returned ->
  header_int "X-Tracker-Pagination-Offset" response = Some offset ->
  next_page_token response =
    Ok (if returned <? limit then None
        else Some [("offset", VInt (offset + limit))]).
Proof.
  intros Htotal Hl Hr Ho. apply contains_header in Htotal.
  unfold next_page_token. rewrite Htotal. cbn [negb].
  rewrite (read_header_int _ _ _ Hl), (read_header_int _ _ _ Hr),
    (read_header_int _ _ _ Ho).
  cbn [mbind result_bind]. now destruct (returned <? limit).
Qed.

(** A page that reports at least [limit] records, also one that reports
    more, asks for the page at [offset + limit]; that offset lies beyond
    the offset of the response exactly when [limit] is positive, so a
    response with a limit of zero asks for its own offset again. *)
Theorem next_page_token_progress (response : Response)
    (limit returned offset : Z) :
  is_Some (header "X-Tracker-Pagination-Total" response) ->
  header_int "X-Tracker-Pagination-Limit" response = Some limit ->
  header_int "X-Tracker-Pagination-Returned" response = Some returned ->
  header_int "X-Tracker-Pagination-Offset" response = Some offset ->
  limit <= returned ->
  next_page_token response = Ok (Some [("offset", VInt (offset + limit))]) /\
  (offset < offset + limit <-> 0 < limit) /\
  (limit = 0 ->
   next_page_token response = Ok (Some [("offset", VInt offset)])).
Proof.
  intros Htotal Hl Hr Ho Hle.
  rewrite (next_page_token_consistent _ _ _ _ Htotal Hl Hr Ho).
  apply Z.ltb_ge in Hle. rewrite Hle.
  split_and!; [reflexivity | lia |].
  intros ->. now rewrite Z.add_0_r.
Qed.

Lemma next_page_token_progress_witness :
  next_page_token
    (response_of [("X-Tracker-Pagination-Total", "250");
                  ("X-Tracker-Pagination-Limit", "100");
                  ("X-Tracker-Pagination-Returned", "120");
                  ("X-Tracker-Pagination-Offset", "100")] (VList []))
  = Ok (Some [("offset", VInt 200)]) /\
  next_page_token
    (response_of [("X-Tracker-Pagination-Total", "7");
                  ("X-Tracker-Pagination-Limit", "0");
                  ("X-Tracker-Pagination-Returned", "0");
                  ("X-Tracker-Pagination-Offset", "7")] (VList []))
  = Ok (Some [("offset", VInt 7)]).
Proof.
  split.
  - refine (proj1 (next_page_token_progress _ 100 120 100 _ _ _ _ _));
      [vm_compute; eauto | reflexivity | reflexivity | reflexivity | lia].
  - refine (proj2 (proj2 (next_page_token_progress _ 0 0 7 _ _ _ _ _)) _);
      [vm_compute; eauto | reflexivity | reflexivity | reflexivity | lia
      | reflexivity].
Defined.

(** Whatever token [next_page_token] returns, [request_params] accepts
    it: with no next page the parameters are empty, otherwise they are
    the token itself, the one entry [offset]; the incremental streams
    add their cursor filter after it. *)
Theorem request_params_of_next_page_token (response : Response)
    (token : option dict) (stream_state : dict) (stream_slice : option dict)
    (self : IncrementalPivotalStream.t) :
  next_page_token response = Ok token ->
  request_params stream_state stream_slice token = Ok (default [] token) /\
  (IncrementalPivotalStream.cursor_filter self <> "offset" ->
   IncrementalPivotalStream.request_params self stream_state stream_slice token =
     Ok (default [] token ++
         [(IncrementalPivotalStream.cursor_filter self,
           Dict.get (IncrementalPivotalStream.cursor_field self) VNone stream_state)])).
Proof.
  intros Hnext.
  assert (Hbase : request_params stream_state stream_slice token = Ok (default [] token)).
  { destruct token as [token|]; [|reflexivity].
    apply next_page_token_offset in Hnext as [offset ->]. reflexivity. }
  split; [exact Hbase|].
  intros Hne. unfold IncrementalPivotalStream.request_params.
  rewrite Hbase. cbn [mbind result_bind]. f_equal.
  destruct token as [token|]; [|reflexivity].
  apply next_page_token_offset in Hnext as [offset ->].
  apply String.eqb_neq in Hne. unfold default, id. cbn [Dict.set app].
  now rewrite Hne.
Qed.

Lemma request_params_of_next_page_token_witness :
  request_params [] (Some [("project_id", VInt 1)])
    (Some [("offset", VInt 200)])
  = Ok [("offset", VInt 200)] /\
  IncrementalPivotalStream.request_params (Stories.__init__ [VInt 1])
    [("updated_at", VStr "2022-01-01T00:00:00")] (Some [("project_id", VInt 1)])
    (Some [("offset", VInt 200)])
  = Ok [("offset", VInt 200); ("updated_after", VStr "2022-01-01T00:00:00")].
Proof.
  split.
  - apply (proj1 (request_params_of_next_page_token
             (response_of [("X-Tracker-Pagination-Total", "250");
                           ("X-Tracker-Pagination-Limit", "100");
                           ("X-Tracker-Pagination-Returned", "100");
                           ("X-Tracker-Pagination-Offset", "100")] (VList []))
             (Some [("offset", VInt 200)]) [] (Some [("project_id", VInt 1)])
             (Stories.__init__ [VInt 1]) eq_refl)).
  - apply (proj2 (request_params_of_next_page_token
             (response_of [("X-Tracker-Pagination-Total", "250");
                           ("X-Tracker-Pagination-Limit", "100");
                           ("X-Tracker-Pagination-Returned", "100");
                           ("X-Tracker-Pagination-Offset", "100")] (VList []))
             (Some [("offset", VInt 200)])
             [("updated_at", VStr "2022-01-01T00:00:00")]
             (Some [("project_id", VInt 1)])
             (Stories.__init__ [VInt 1]) eq_refl)).
    discriminate.
Defined.

(** A page token that is an empty mapping counts as no token; one that
    is not empty and has no [offset] makes [request_params] raise
    [KeyError] on [offset], for the incremental streams too; the other
    keys of a token never reach the parameters. *)
Theorem request_params_token_edges (stream_state : dict)
    (stream_slice : option dict) (self : IncrementalPivotalStream.t) :
  request_params stream_state stream_slice (Some []) =
    request_params stream_state stream_slice None /\
  (forall token,
     token <> [] -> Dict.lookup "offset" token = None ->
     request_params stream_state stream_slice (Some token)
       = Raise (KeyError "offset") /\
     IncrementalPivotalStream.request_params self stream_state stream_slice (Some token)
       = Raise (KeyError "offset")) /\
  (forall token offset,
     Dict.lookup "offset" token = Some offset ->
     request_params stream_state stream_slice (Some token)
       = Ok [("offset", offset)]).
Proof.
  split_and!.
  - reflexivity.
  - intros token Hne Hoff.
    assert (Hbase : request_params stream_state stream_slice (Some token)
                    = Raise (KeyError "offset")).
    { unfold request_params, Dict.getitem. rewrite Hoff.
      destruct token; [congruence | reflexivity]. }
    split; [exact Hbase|].
    unfold IncrementalPivotalStream.request_params. now rewrite Hbase.
  - intros token offset Hoff.
    unfold request_params, Dict.getitem. rewrite Hoff.
    destruct token; [discriminate | reflexivity].
Qed.

Lemma request_params_token_edges_witness :
  request_params [] None (Some [("page", VInt 2)]) = Raise (KeyError "offset") /\
  request_params [] None (Some [("page", VInt 2); ("offset", VInt 50)])
    = Ok [("offset", VInt 50)].
Proof.
  split.
  - refine (proj1 (proj1 (proj2 (request_params_token_edges [] None
                                   (Stories.__init__ [])))
                     [("page", VInt 2)] _ eq_refl)).
    discriminate.
  - exact (proj2 (proj2 (request_params_token_edges [] None
                           (Stories.__init__ [])))
             [("page", VInt 2); ("offset", VInt 50)] (VInt 50) eq_refl).
Defined.

End NextRequest.

Section ParseResponse.

Import PivotalTrackerStream.

Lemma items_gen_of_list {A} (l : list A) : items (gen_of_list l) = l.
Proof. induction l; simpl; congruence. Qed.

Lemma outcome_gen_of_list {A} (l : list A) : outcome (gen_of_list l) = None.
Proof. induction l; simpl; congruence. Qed.

(** [parse_response] gives the elements of a body that is an array, in
    order and unchanged, and then returns; of a body that is an object it
    gives the keys, as strings, instead of records. *)
Theorem parse_response_body (response : Response) :
  (forall records,
     json response = Ok (VList records) ->
     items (parse_response response) = records /\
     outcome (parse_response response) = None) /\
  (forall d,
     json response = Ok (VDict d) ->
     items (parse_response response) = VStr <$> Dict.keys d /\
     outcome (parse_response response) = None).
Proof.
  split; intros body Hj; unfold parse_response; rewrite Hj;
    cbn [mbind result_bind py_iter];
    now rewrite items_gen_of_list, outcome_gen_of_list.
Qed.

Lemma parse_response_body_witness :
  items (parse_response
           (response_of [] (VDict [("code", VStr "unfound_resource");
                                   ("kind", VStr "error")])))
  = [VStr "code"; VStr "kind"] /\
  outcome (parse_response
             (response_of [] (VDict [("code", VStr "unfound_resource");
                                     ("kind", VStr "error")])))
  = None.
Proof.
  exact (proj2 (parse_response_body
                  (response_of [] (VDict [("code", VStr "unfound_resource");
                                          ("kind", VStr "error")])))
           [("code", VStr "unfound_resource"); ("kind", VStr "error")] eq_refl).
Defined.

(** [parse_response] yields no record and raises when the body cannot be
    read as a sequence: what [response.json()] raises, or [TypeError] for
    a body that is [null], a boolean or a number. *)
Theorem parse_response_raises (response : Response) :
  (forall e,
     json response = Raise e ->
     parse_response response = Throw e) /\
  (forall body,
     json response = Ok body ->
     body = VNone \/ (exists b, body = VBool b) \/ (exists z, body = VInt z) ->
     parse_response response = Throw TypeError) /\
  (forall e, parse_response response = Throw e ->
     fst (next (parse_response response)) = Raise e /\
     items (parse_response response) = []).
Proof.
  split_and!.
  - intros e Hj. unfold parse_response. now rewrite Hj.
  - intros body Hj Hbody. unfold parse_response. rewrite Hj.
    destruct Hbody as [->|[[b ->]|[z ->]]]; reflexivity.
  - intros e ->. split; reflexivity.
Qed.

Lemma parse_response_raises_witness :
  parse_response {| headers := ∅; json := Raise (TransportError "Expecting value") |}
    = Throw (TransportError "Expecting value") /\
  parse_response (response_of [] VNone) = Throw TypeError.
Proof.
  split.
  - exact (proj1 (parse_response_raises
                    {| headers := ∅; json := Raise (TransportError "Expecting value") |})
             (TransportError "Expecting value") eq_refl).
  - refine (proj1 (proj2 (parse_response_raises (response_of [] VNone)))
              VNone eq_refl _).
    now left.
Defined.

End ParseResponse.

Section ActivityMore.

Import Activity.

Lemma set_set k v d : Dict.set k v (Dict.set k v d) = Dict.set k v d.
Proof.
  induction d as [|[k' v'] d IH]; cbn [Dict.set].
  - now rewrite String.eqb_refl.
  - destruct (String.eqb k k') eqn:E; cbn [Dict.set]; rewrite E;
      [reflexivity | now rewrite IH].
Qed.

Lemma lift_project_id_idempotent record out :
  lift_project_id record = Ok out -> lift_project_id out = Ok out.
Proof.
  destruct record as [| | |s|l|d]; try discriminate.
  - unfold lift_project_id. cbn [py_contains mbind result_bind].
    destruct (is_substring "project" s) eqn:E; [discriminate|].
    intros [= <-]. cbn [py_contains mbind result_bind]. now rewrite E.
  - unfold lift_project_id. cbn [py_contains mbind result_bind].
    destruct (existsb _ l) eqn:E; [discriminate|].
    intros [= <-]. cbn [py_contains mbind result_bind]. now rewrite E.
  - rewrite lift_project_id_dict.
    destruct (Dict.lookup "project" d) as [project|] eqn:Ep.
    + destruct (py_getitem project "id") as [id|] eqn:Eid; [|discriminate].
      cbn [mbind result_bind]. intros [= <-].
      rewrite lift_project_id_dict, lookup_set_ne, Ep by discriminate.
      rewrite Eid. cbn [mbind result_bind]. now rewrite set_set.
    + intros [= <-]. now rewrite lift_project_id_dict, Ep.
Qed.

Lemma lift_all_idempotent (g : gen value) :
  outcome (lift_all g) = None ->
  lift_all (gen_of_list (items (lift_all g))) = lift_all g.
Proof.
  induction g as [|e|record rest IH]; cbn [lift_all]; try discriminate.
  - reflexivity.
  - destruct (lift_project_id record) as [out|e] eqn:E; [|discriminate].
    cbn [outcome items gen_of_list lift_all]. intros Hout.
    now rewrite (lift_project_id_idempotent _ _ E), IH.
Qed.

(** Parsing is idempotent on its output: a body made of the records that
    [Activity.parse_response] gave for a body it read to the end parses
    to the same records again. *)
Theorem Activity_parse_response_idempotent (response response' : Response)
    (body : list value) :
  json response = Ok (VList body) ->
  outcome (parse_response response) = None ->
  json response' = Ok (VList (items (parse_response response))) ->
  parse_response response' = parse_response response.
Proof.
  intros Hj Hout Hj'.
  rewrite (parse_response_json _ _ Hj'), (parse_response_json _ _ Hj).
  rewrite (parse_response_json _ _ Hj) in Hout.
  now apply lift_all_idempotent.
Qed.

Lemma Activity_parse_response_idempotent_witness :
  parse_response
    (response_of []
       (VList [VDict [("guid", VStr "a"); ("project", VDict [("id", VInt 42)]);
                      ("project_id", VInt 42)]]))
  = parse_response
      (response_of []
         (VList [VDict [("guid", VStr "a"); ("project", VDict [("id", VInt 42)])]])).
Proof.
  exact (Activity_parse_response_idempotent
           (response_of []
              (VList [VDict [("guid", VStr "a"); ("project", VDict [("id", VInt 42)])]]))
           (response_of []
              (VList [VDict [("guid", VStr "a"); ("project", VDict [("id", VInt 42)]);
                             ("project_id", VInt 42)]]))
           [VDict [("guid", VStr "a"); ("project", VDict [("id", VInt 42)])]]
           eq_refl eq_refl eq_refl).
Defined.

Lemma lifted_getitem d out k :
  lifted d out -> k <> "project_id" -> py_getitem out k = py_getitem (VDict d) k.
Proof.
  unfold lifted. intros Hl Hk.
  destruct (Dict.lookup "project" d) as [project|]; [|now subst].
  destruct Hl as (id & _ & d' & -> & _ & Hother & _).
  cbn [py_getitem]. unfold Dict.getitem. now rewrite (Hother k Hk).
Qed.

Lemma cursors_ext cf (rs rs' : list value) :
  Forall2 (fun r r' => py_getitem r' cf = py_getitem r cf) rs rs' ->
  cursors cf rs' = cursors cf rs.
Proof.
  induction 1 as [|r r' rs rs' Hr _ IH]; cbn [cursors]; [reflexivity|].
  now rewrite Hr, IH.
Qed.

(** The lift of [project_id] leaves every other field of a record as it
    was, so the records that [Activity.parse_response] yields carry the
    cursor values of the body: the watermark of the Activity stream is
    computed from [occurred_at] as the server sent it. *)
Theorem Activity_parse_response_keeps_cursors (response : Response)
    (records : list dict) (k : string) :
  json response = Ok (VList (VDict <$> records)) ->
  forallb project_has_id records = true ->
  k <> "project_id" ->
  (fun r => py_getitem r k) <$> items (parse_response response) =
    (fun d => py_getitem (VDict d) k) <$> records /\
  cursors k (items (parse_response response)) = cursors k (VDict <$> records) /\
  (forall ids,
     IncrementalPivotalStream.cursor_field (Activity.__init__ ids) <> "project_id").
Proof.
  intros Hj Hall Hk. rewrite (parse_response_json _ _ Hj).
  destruct (lift_all_prefix records [] Hall) as (outs & Houts & Hitems & _).
  rewrite app_nil_r in Hitems. rewrite Hitems. cbn [gen_of_list lift_all items].
  rewrite app_nil_r.
  assert (Hget : Forall2 (fun d out => py_getitem out k = py_getitem (VDict d) k)
                   records outs).
  { eapply Forall2_impl; [exact Houts|]. intros d out Hl. now apply lifted_getitem. }
  split_and!.
  - clear -Hget. induction Hget as [|d out ds outs' H _ IH]; cbn; [reflexivity|].
    now rewrite H, IH.
  - apply cursors_ext. clear -Hget.
    induction Hget as [|d out ds outs' H _ IH]; cbn; constructor; auto.
  - intros ids. discriminate.
Qed.

Lemma Activity_parse_response_keeps_cursors_witness :
  cursors "occurred_at"
    (items (parse_response
       (response_of []
          (VList [VDict [("guid", VStr "a"); ("occurred_at", VStr "2022-02-01T00:00:00");
                         ("project", VDict [("id", VInt 42)])]]))))
  = Some ["2022-02-01T00:00:00"].
Proof.
  exact (proj1 (proj2 (Activity_parse_response_keeps_cursors
           (response_of []
              (VList [VDict [("guid", VStr "a"); ("occurred_at", VStr "2022-02-01T00:00:00");
                             ("project", VDict [("id", VInt 42)])]]))
           [[("guid", VStr "a"); ("occurred_at", VStr "2022-02-01T00:00:00");
             ("project", VDict [("id", VInt 42)])]]
           "occurred_at" eq_refl eq_refl ltac:(discriminate)))).
Defined.

End ActivityMore.

Section ReadPassMore.

Import IncrementalPivotalStream.

Lemma read_records_from_resumed self suspended self' (upstream : gen value) :
  resume self suspended = Ok self' ->
  read_records_from self suspended upstream = read_records_from self' None upstream.
Proof.
  intros Hres. destruct upstream; cbn [read_records_from resume]; now rewrite Hres.
Qed.

Lemma read_records_from_then before : forall self suspended seen mid tail,
  read_records_from self suspended (gen_of_list before) = (seen, (mid, None)) ->
  read_records_from self suspended (gen_then before tail) =
    (seen ++ fst (read_records mid tail), snd (read_records mid tail)).
Proof.
  induction before as [|r before IH]; intros self suspended seen mid tail Hpass;
    cbn [gen_of_list gen_then read_records_from] in *.
  - destruct (resume self suspended) as [self'|e] eqn:Hres; [|discriminate].
    injection Hpass as <- <-.
    rewrite (read_records_from_resumed _ _ _ tail Hres). unfold read_records.
    now destruct (read_records_from self' None tail).
  - destruct (resume self suspended) as [self'|e] eqn:Hres; [|discriminate].
    destruct (read_records_from self' (Some r) (gen_of_list before))
      as [seen' last'] eqn:Hrest.
    injection Hpass as <- ->.
    now rewrite (IH _ _ _ _ tail Hrest).
Qed.

(** Slices share one cursor: reading one upstream to its end and then a
    second one on the stream as the first pass left it gives the records,
    the last stream and the ending of a single pass over an upstream that
    yields the records of the first and goes on as the second. *)
Theorem read_records_in_sequence (self mid : t) (first : list value)
    (second : gen value) (seen : list (value * t)) :
  read_records self (gen_of_list first) = (seen, (mid, None)) ->
  read_records self (gen_then first second) =
    (seen ++ fst (read_records mid second), snd (read_records mid second)).
Proof. apply read_records_from_then. Qed.

Lemma read_records_in_sequence_witness :
  snd (read_records (Stories.__init__ [VInt 1; VInt 2])
         (gen_then [VDict [("updated_at", VStr "2022-03-01T00:00:00")]]
            (gen_of_list [VDict [("updated_at", VStr "2022-01-01T00:00:00")]])))
  = snd (read_records
           (with_cursor_value (Stories.__init__ [VInt 1; VInt 2])
              (VStr "2022-03-01T00:00:00"))
           (gen_of_list [VDict [("updated_at", VStr "2022-01-01T00:00:00")]])).
Proof.
  exact (f_equal snd
           (read_records_in_sequence (Stories.__init__ [VInt 1; VInt 2])
              (with_cursor_value (Stories.__init__ [VInt 1; VInt 2])
                 (VStr "2022-03-01T00:00:00"))
              [VDict [("updated_at", VStr "2022-03-01T00:00:00")]]
              (gen_of_list [VDict [("updated_at", VStr "2022-01-01T00:00:00")]])
              _ eq_refl)).
Defined.

(** A failure of the upstream loses nothing: when the upstream raises
    after some records, the pass has yielded those records and leaves the
    stream that it would leave had the upstream ended there, the last
    record yielded counted in; only the ending differs. *)
Theorem read_records_upstream_failure (self last : t) (records : list value)
    (seen : list (value * t)) (e : exn) :
  read_records self (gen_of_list records) = (seen, (last, None)) ->
  read_records self (gen_then records (Throw e)) = (seen, (last, Some e)).
Proof.
  intros Hpass. unfold read_records at 1.
  rewrite (read_records_from_then _ _ _ _ _ (Throw e) Hpass).
  cbn. now rewrite app_nil_r.
Qed.

Lemma read_records_upstream_failure_witness :
  read_records (Stories.__init__ [VInt 1])
    (gen_then [VDict [("updated_at", VStr "2022-03-01T00:00:00")]]
       (Throw (TransportError "Read timed out")))
  = ([(VDict [("updated_at", VStr "2022-03-01T00:00:00")], Stories.__init__ [VInt 1])],
     (with_cursor_value (Stories.__init__ [VInt 1]) (VStr "2022-03-01T00:00:00"),
      Some (TransportError "Read timed out"))).
Proof.
  exact (read_records_upstream_failure (Stories.__init__ [VInt 1]) _
           [VDict [("updated_at", VStr "2022-03-01T00:00:00")]] _
           (TransportError "Read timed out") eq_refl).
Defined.

Lemma py_max_not_str v w :
  (forall s, v <> VStr s) -> py_max v (VStr w) = Raise TypeError.
Proof.
  intros Hv. unfold py_max. destruct v; try reflexivity. now destruct (Hv s).
Qed.

(** A record that the watermark cannot take is still yielded: when the
    record lacks the cursor field, or holds there something that is not a
    string while the watermark is one, the pass yields it, then ends with
    [KeyError] on the cursor field, or with [TypeError]; the stream stays
    as it was before that record, and nothing after the record is read. *)
Theorem read_records_bad_record (self mid : t) (before : list value)
    (seen : list (value * t)) (bad : value) (rest : gen value) :
  read_records self (gen_of_list before) = (seen, (mid, None)) ->
  (forall e,
     advance mid bad = Raise e ->
     read_records self (gen_then before (Yield bad rest)) =
       (seen ++ [(bad, mid)], (mid, Some e))) /\
  (forall d,
     bad = VDict d -> Dict.lookup (cursor_field mid) d = None ->
     advance mid bad = Raise (KeyError (cursor_field mid))) /\
  (forall v w,
     py_getitem bad (cursor_field mid) = Ok v -> (forall s, v <> VStr s) ->
     _cursor_value mid = VStr w ->
     advance mid bad = Raise TypeError).
Proof.
  intros Hpass. split_and!.
  - intros e Hadv. unfold read_records at 1.
    rewrite (read_records_from_then _ _ _ _ _ (Yield bad rest) Hpass).
    unfold read_records. cbn [read_records_from resume].
    destruct rest; cbn [read_records_from resume]; now rewrite Hadv.
  - intros d -> Hd. unfold advance. cbn [py_getitem]. unfold Dict.getitem.
    now rewrite Hd.
  - intros v w Hv Hns Hw. unfold advance. rewrite Hv, Hw.
    cbn [mbind result_bind]. now rewrite py_max_not_str.
Qed.

Lemma read_records_bad_record_witness :
  read_records (Stories.__init__ [VInt 1])
    (gen_then [VDict [("updated_at", VStr "2022-03-01T00:00:00")]]
       (Yield (VDict [("id", VInt 7)])
          (gen_of_list [VDict [("updated_at", VStr "2022-04-01T00:00:00")]])))
  = ([(VDict [("updated_at", VStr "2022-03-01T00:00:00")], Stories.__init__ [VInt 1]);
      (VDict [("id", VInt 7)],
       with_cursor_value (Stories.__init__ [VInt 1]) (VStr "2022-03-01T00:00:00"))],
     (with_cursor_value (Stories.__init__ [VInt 1]) (VStr "2022-03-01T00:00:00"),
      Some (KeyError "updated_at"))).
Proof.
  refine (proj1 (read_records_bad_record (Stories.__init__ [VInt 1]) _
                   [VDict [("updated_at", VStr "2022-03-01T00:00:00")]] _
                   (VDict [("id", VInt 7)])
                   (gen_of_list [VDict [("updated_at", VStr "2022-04-01T00:00:00")]])
                   eq_refl) (KeyError "updated_at") _).
  refine (proj1 (proj2 (read_records_bad_record (Stories.__init__ [VInt 1]) _
                   [VDict [("updated_at", VStr "2022-03-01T00:00:00")]] _
                   (VDict [("id", VInt 7)]) Stop eq_refl))
            [("id", VInt 7)] eq_refl eq_refl).
Defined.

Lemma seen_lookup_strings records : forall ts self suspended self1 w1 k record,
  resume self suspended = Ok self1 ->
  _cursor_value self1 = VStr w1 ->
  cursors (cursor_field self1) records = Some ts ->
  records !! k = Some record ->
  exists s,
    fst (read_records_from self suspended (gen_of_list records)) !! k
      = Some (record, s) /\
    _cursor_value s = VStr (foldl (fun w c => smax c w) w1 (take k ts)).
Proof.
  induction records as [|r records IH];
    intros ts self suspended self1 w1 k record Hres Hw Hts Hk; [discriminate|].
  apply cursors_cons in Hts as (c & cs & Hr & Hcs & ->).
  cbn [gen_of_list read_records_from]. rewrite Hres.
  destruct (read_records_from self1 (Some r) (gen_of_list records))
    as [seen last] eqn:Hrest.
  destruct k as [|k]; cbn [fst].
  - injection Hk as <-. exists self1. split; [reflexivity | exact Hw].
  - pose proof (advance_str self1 r c w1 Hw Hr) as Hadv.
    destruct (IH cs self1 (Some r) (with_cursor_value self1 (VStr (smax c w1)))
                (smax c w1) k record Hadv eq_refl Hcs Hk) as (s & Hs & Hws).
    rewrite Hrest in Hs. exists s. split; [exact Hs | exact Hws].
Qed.

(** The watermark runs one record behind the consumer: on receiving the
    record at position [k] of a pass, the consumer finds as watermark the
    maximum of the starting watermark and the cursor values of the [k]
    records before it, the record just received not yet counted. *)
Theorem read_records_watermark_lags (self : t) (w0 : string)
    (records : list value) (ts : list string) (k : nat) (record : value) :
  _cursor_value self = VStr w0 ->
  cursors (cursor_field self) records = Some ts ->
  records !! k = Some record ->
  exists s m,
    fst (read_records self (gen_of_list records)) !! k = Some (record, s) /\
    _cursor_value s = VStr m /\
    is_maximum m (w0 :: take k ts).
Proof.
  intros Hw Hts Hk.
  destruct (seen_lookup_strings records ts self None self w0 k record
              eq_refl Hw Hts Hk) as (s & Hs & Hws).
  exists s, (foldl (fun w c => smax c w) w0 (take k ts)).
  split_and!; [exact Hs | exact Hws | apply fold_smax_is_maximum].
Qed.

Lemma read_records_watermark_lags_witness :
  exists s m,
    fst (read_records (Stories.__init__ [VInt 1])
           (gen_of_list [VDict [("updated_at", VStr "2022-02-01T00:00:00")];
                         VDict [("updated_at", VStr "2022-03-01T00:00:00")]]))
      !! 1%nat
    = Some (VDict [("updated_at", VStr "2022-03-01T00:00:00")], s) /\
    _cursor_value s = VStr m /\
    is_maximum m ["";  "2022-02-01T00:00:00"].
Proof.
  exact (read_records_watermark_lags (Stories.__init__ [VInt 1]) ""
           [VDict [("updated_at", VStr "2022-02-01T00:00:00")];
            VDict [("updated_at", VStr "2022-03-01T00:00:00")]]
           ["2022-02-01T00:00:00"; "2022-03-01T00:00:00"] 1
           (VDict [("updated_at", VStr "2022-03-01T00:00:00")])
           eq_refl eq_refl eq_refl).
Defined.

(** Persisting and loading the state: the state of one stream, set on
    another stream of the same cursor field, gives that stream the
    watermark of the first when it is not empty; the empty state of a
    stream that has no watermark yet sets the epoch default, so that the
    state read back is no longer empty. *)
Theorem state_set_state (self other : t) :
  cursor_field other = cursor_field self ->
  (truthy (_cursor_value self) = true ->
     _cursor_value (set_state other (state self)) = _cursor_value self /\
     state (set_state other (state self)) = state self) /\
  (truthy (_cursor_value self) = false ->
     _cursor_value (set_state other (state self)) = VStr "1970-01-01T00:00:00" /\
     state (set_state other (state self)) =
       [(cursor_field self, VStr "1970-01-01T00:00:00")]).
Proof.
  intros Hcf. split; intros Ht.
  - assert (Hv : _cursor_value (set_state other (state self)) = _cursor_value self).
    { unfold set_state, state. rewrite Ht, Hcf. unfold Dict.get. cbn.
      now rewrite String.eqb_refl. }
    split; [exact Hv|]. unfold state at 1 3. rewrite Hv, Ht.
    cbn. now rewrite Hcf.
  - assert (Hv : _cursor_value (set_state other (state self))
                 = VStr "1970-01-01T00:00:00").
    { unfold set_state, state. now rewrite Ht. }
    split; [exact Hv|]. unfold state at 1. rewrite Hv. cbn. now rewrite Hcf.
Qed.

Lemma state_set_state_witness :
  state (set_state (Stories.__init__ [VInt 1]) (state (Stories.__init__ [VInt 2])))
    = [("updated_at", VStr "1970-01-01T00:00:00")] /\
  _cursor_value
    (set_state (Stories.__init__ [VInt 1])
       (state (with_cursor_value (Stories.__init__ [VInt 2])
                 (VStr "2022-03-01T00:00:00"))))
    = VStr "2022-03-01T00:00:00".
Proof.
  split.
  - exact (proj2 (proj2 (state_set_state (Stories.__init__ [VInt 2])
                           (Stories.__init__ [VInt 1]) eq_refl) eq_refl)).
  - exact (proj1 (proj1 (state_set_state
                           (with_cursor_value (Stories.__init__ [VInt 2])
                              (VStr "2022-03-01T00:00:00"))
                           (Stories.__init__ [VInt 1]) eq_refl) eq_refl)).
Defined.

End ReadPassMore.

Section DiscoveryMore.

Import SourcePivotalTracker.

Variable read_records : http_stream -> gen value.

Lemma filter_failures_length auth (ids : list value) :
  (length (List.filter (accessible read_records auth) ids)
   + length (failures read_records auth ids) = length ids)%nat.
Proof.
  induction ids as [|p ids IH]; cbn [List.filter failures]; [reflexivity|].
  unfold accessible at 1.
  destruct (probe read_records auth p); cbn [length]; lia.
Qed.

Lemma filter_sublist {A} (f : A -> bool) (l : list A) :
  sublist (List.filter f l) l.
Proof.
  induction l as [|a l IH]; cbn [List.filter]; [constructor|].
  destruct (f a); now constructor.
Qed.

(** Discovery accounts for every listed project: each listed id is
    either returned or leaves exactly one line in the log, so the ids
    returned and the lines added number as many as the ids listed; the
    ids returned are the listed ones with some left out, in their order
    and with their repetitions, and the log that was there is kept. *)
Theorem generate_project_ids_accounts (auth : PivotalAuthenticator.t)
    (ids : list value) (logger : log) :
  outcome (read_records (Projects auth)) = None ->
  listed_ids (items (read_records (Projects auth))) = Some ids ->
  exists project_ids added,
    _generate_project_ids read_records auth logger
      = (Ok project_ids, logger ++ added) /\
    (length project_ids + length added = length ids)%nat /\
    sublist project_ids ids /\
    Forall (fun p => accessible read_records auth p = true) project_ids.
Proof.
  intros Hout Hids.
  exists (List.filter (accessible read_records auth) ids),
         (failures read_records auth ids).
  split_and!.
  - unfold _generate_project_ids.
    now rewrite (collect_project_ids_spec read_records auth _ ids [] logger Hids), Hout.
  - apply filter_failures_length.
  - apply filter_sublist.
  - apply Forall_forall. intros p Hp.
    apply list_elem_of_In, filter_In in Hp. tauto.
Qed.

Lemma collect_project_ids_bad_record auth (before : list value) :
  forall ids bad rest e project_ids logger,
    listed_ids before = Some ids ->
    py_getitem bad "id" = Raise e ->
    collect_project_ids read_records auth (gen_then before (Yield bad rest))
      project_ids logger
    = (Raise e, logger ++ failures read_records auth ids).
Proof.
  induction before as [|r before IH];
    intros ids bad rest e project_ids logger Hids Hbad.
  - injection Hids as <-. cbn [gen_then collect_project_ids failures].
    now rewrite Hbad, app_nil_r.
  - cbn [listed_ids] in Hids. cbn [gen_then collect_project_ids].
    destruct (py_getitem r "id") as [project_id|]; [|discriminate].
    destruct (listed_ids before) as [ids'|] eqn:Ebefore; [|discriminate].
    injection Hids as <-.
    rewrite check_project_availability_probe.
    rewrite (IH ids' bad rest e _ _ eq_refl Hbad).
    cbn [failures]. destruct (probe read_records auth project_id);
      now rewrite <- ?app_assoc, ?app_nil_r.
Qed.

(** What ends discovery: an exception of the listing, or a listed record
    without [id] ([KeyError] for an object, [TypeError] for a record that
    is no object), is raised by [_generate_project_ids]; the projects
    listed before it have been probed and their failures logged, and no
    record after it is looked at. *)
Theorem generate_project_ids_raises (auth : PivotalAuthenticator.t)
    (logger : log) :
  (forall ids e,
     outcome (read_records (Projects auth)) = Some e ->
     listed_ids (items (read_records (Projects auth))) = Some ids ->
     _generate_project_ids read_records auth logger
       = (Raise e, logger ++ failures read_records auth ids)) /\
  (forall before ids bad rest e,
     read_records (Projects auth) = gen_then before (Yield bad rest) ->
     listed_ids before = Some ids ->
     py_getitem bad "id" = Raise e ->
     _generate_project_ids read_records auth logger
       = (Raise e, logger ++ failures read_records auth ids)) /\
  (forall d, Dict.lookup "id" d = None ->
     py_getitem (VDict d) "id" = Raise (KeyError "id")) /\
  (forall bad, (forall d, bad <> VDict d) ->
     py_getitem bad "id" = Raise TypeError).
Proof.
  split_and!.
  - intros ids e Hout Hids. unfold _generate_project_ids.
    now rewrite (collect_project_ids_spec read_records auth _ ids [] logger Hids), Hout.
  - intros before ids bad rest e Hlist Hids Hbad. unfold _generate_project_ids.
    rewrite Hlist. now apply collect_project_ids_bad_record.
  - intros d Hd. cbn [py_getitem]. unfold Dict.getitem. now rewrite Hd.
  - intros bad Hbad. destruct bad; try reflexivity. now destruct (Hbad d).
Qed.

(** The catalog: when discovery ends with the listed ids [ids], [streams]
    returns the [Projects] stream and then six project streams, stories,
    memberships, labels, releases, epics and activity; each of the six,
    sliced, gives one slice per accessible project in listing order, so
    none at all when no project is accessible; the first and the last of
    the six, stories and activity, are the incremental ones, on the
    cursor fields [updated_at] and [occurred_at], and start with an empty
    state; the four between them are not incremental. *)
Theorem streams_catalog (config : dict) (ids : list value) (logger : log) :
  outcome (read_records (Projects (_get_authenticator config))) = None ->
  listed_ids (items (read_records (Projects (_get_authenticator config)))) = Some ids ->
  exists project_streams stories activity,
    fst (streams read_records config logger)
      = Ok (Http (Projects (_get_authenticator config)) :: project_streams) /\
    subpath_of <$> project_streams =
      Some <$> ["stories"; "memberships"; "labels"; "releases"; "epics"; "activity"] /\
    Forall (fun stream =>
              exists project_ids,
                project_ids_of stream = Some project_ids /\
                items (ProjectBasedStream.stream_slices project_ids) =
                  (fun p => [("project_id", p)]) <$>
                    List.filter (accessible read_records (_get_authenticator config)) ids)
      project_streams /\
    project_streams !! 0%nat = Some (Incremental stories (_get_authenticator config)) /\
    project_streams !! 5%nat = Some (Incremental activity (_get_authenticator config)) /\
    IncrementalPivotalStream.cursor_field stories = "updated_at" /\
    IncrementalPivotalStream.cursor_field activity = "occurred_at" /\
    IncrementalPivotalStream.state stories = [] /\
    IncrementalPivotalStream.state activity = [] /\
    Forall (fun stream =>
              exists subpath project_ids,
                stream = ProjectBased subpath project_ids (_get_authenticator config))
      (take 4 (drop 1 project_streams)).
Proof.
  intros Hout Hids. unfold streams, _generate_project_ids.
  rewrite (collect_project_ids_spec read_records _ _ ids [] logger Hids), Hout.
  cbn [app mbind result_bind fst].
  eexists _, _, _. split; [reflexivity|].
  assert (Hslices : forall project_ids : list value,
            items (ProjectBasedStream.stream_slices project_ids) =
            (fun p => [("project_id", p)]) <$> project_ids).
  { induction project_ids as [|p l IH]; cbn; [reflexivity | now rewrite IH]. }
  split_and!; try reflexivity.
  - repeat constructor; eexists; (split; [reflexivity | apply Hslices]).
  - cbn [take drop]. repeat constructor; eauto.
Qed.

End DiscoveryMore.

Section DiscoveryMoreExamples.

Import SourcePivotalTracker.

Lemma generate_project_ids_accounts_witness :
  exists project_ids added,
    _generate_project_ids server_refusing_2
      (_get_authenticator [("api_token", VStr "secret")]) []
      = (Ok project_ids, [] ++ added) /\
    (length project_ids + length added = 3)%nat /\
    sublist project_ids [VInt 1; VInt 2; VInt 3] /\
    Forall (fun p => accessible server_refusing_2
                       (_get_authenticator [("api_token", VStr "secret")]) p = true)
      project_ids.
Proof.
  exact (generate_project_ids_accounts server_refusing_2
           (_get_authenticator [("api_token", VStr "secret")])
           [VInt 1; VInt 2; VInt 3] [] eq_refl eq_refl).
Defined.

Lemma generate_project_ids_raises_witness :
  _generate_project_ids
    (fun stream =>
       match stream with
       | Projects _ =>
           gen_then [VDict [("id", VInt 1)]]
             (Yield (VDict [("name", VStr "no id")]) (gen_of_list [VDict [("id", VInt 3)]]))
       | Project _ _ => Throw (TransportError "403 Client Error: Forbidden")
       end)
    (_get_authenticator []) []
  = (Raise (KeyError "id"),
     [("Unable to fetch project info: %s",
       TransportError "403 Client Error: Forbidden")]).
Proof.
  refine (proj1 (proj2 (generate_project_ids_raises _ (_get_authenticator []) []))
            [VDict [("id", VInt 1)]] [VInt 1] (VDict [("name", VStr "no id")])
            (gen_of_list [VDict [("id", VInt 3)]]) (KeyError "id")
            eq_refl eq_refl eq_refl).
Defined.

Lemma streams_catalog_witness :
  exists project_streams stories activity,
    fst (streams server_refusing_all [("api_token", VStr "secret")] [])
      = Ok (Http (Projects (_get_authenticator [("api_token", VStr "secret")]))
            :: project_streams) /\
    Forall (fun stream =>
              exists project_ids,
                project_ids_of stream = Some project_ids /\
                items (ProjectBasedStream.stream_slices project_ids) = [])
      project_streams /\
    project_streams !! 0%nat
      = Some (Incremental stories (_get_authenticator [("api_token", VStr "secret")])) /\
    project_streams !! 5%nat
      = Some (Incremental activity (_get_authenticator [("api_token", VStr "secret")])) /\
    IncrementalPivotalStream.state stories = [] /\
    IncrementalPivotalStream.state activity = [].
Proof.
  destruct (streams_catalog server_refusing_all [("api_token", VStr "secret")]
              [VInt 1; VInt 2] [] eq_refl eq_refl)
    as (project_streams & stories & activity
        & H1 & _ & H3 & H4 & H5 & _ & _ & H8 & H9 & _).
  exists project_streams, stories, activity.
  exact (conj H1 (conj H3 (conj H4 (conj H5 (conj H8 H9))))).
Defined.

End DiscoveryMoreExamples.

Section Paths.

Import ProjectBasedStream.

Lemma append_length (s t : string) :
  String.length (s +:+ t) = (String.length s + String.length t)%nat.
Proof.
  induction s as [|c s IH]; simpl; [reflexivity | now rewrite IH].
Qed.

Lemma append_inj_l (t s1 s2 : string) : t +:+ s1 = t +:+ s2 -> s1 = s2.
Proof. induction t as [|c t IH]; simpl; [auto | intros [= H]; auto]. Qed.

Lemma append_inj_r (s1 : string) : forall s2 t, s1 +:+ t = s2 +:+ t -> s1 = s2.
Proof.
  induction s1 as [|c s1 IH]; intros [|c' s2] t H; simpl in H.
  - reflexivity.
  - apply (f_equal String.length) in H.
    rewrite !append_length in H. simpl in H. lia.
  - apply (f_equal String.length) in H.
    rewrite !append_length in H. simpl in H. lia.
  - injection H as -> H. f_equal. eauto.
Qed.

Lemma to_int_not_nil z : Z.to_int z <> Pos Nil /\ Z.to_int z <> Neg Nil.
Proof.
  split; intros H; pose proof (f_equal Z.of_int H) as H';
    rewrite DecimalZ.of_to in H'; cbn in H'; subst z; discriminate.
Qed.

Lemma str_of_int_inj a b : str_of_int a = str_of_int b -> a = b.
Proof.
  unfold str_of_int. intros H.
  destruct (to_int_not_nil a) as [Ha1 Ha2], (to_int_not_nil b) as [Hb1 Hb2].
  pose proof (NilZero.isi _ Ha1 Ha2) as Pa.
  pose proof (NilZero.isi _ Hb1 Hb2) as Pb.
  rewrite H, Pb in Pa. injection Pa as Pa. symmetry. now apply DecimalZ.to_int_inj.
Qed.

(** The slices that [stream_slices] yields are slices that [path]
    takes: each gives the path [projects/<id>/<subpath>] of one of the
    project ids; [path] raises only without a slice ([TypeError]) or on a
    slice without [project_id] ([KeyError]). *)
Theorem path_of_stream_slices (subpath : string) (project_ids : list value) :
  Forall2 (fun project_id slice =>
             path subpath (Some slice) =
             Ok ("projects/" +:+ py_str project_id +:+ "/" +:+ subpath))
    project_ids (items (stream_slices project_ids)) /\
  path subpath None = Raise TypeError /\
  (forall slice,
     Dict.lookup "project_id" slice = None ->
     path subpath (Some slice) = Raise (KeyError "project_id")).
Proof.
  split_and!.
  - induction project_ids as [|p ids IH]; cbn [stream_slices items];
      constructor; [reflexivity | exact IH].
  - reflexivity.
  - intros slice H. unfold path, Dict.getitem. now rewrite H.
Qed.

(** Paths tell projects and streams apart: with integer ids, the paths
    of two slices of one stream are equal only for the same project, as
    are the paths of two [Project] streams; for one slice, two subpaths
    give the same path only when they are equal; an integer id and the
    string of its decimal digits give the same path. *)
Theorem path_distinct (subpath : string) :
  (forall a b : Z,
     path subpath (Some [("project_id", VInt a)]) =
     path subpath (Some [("project_id", VInt b)]) -> a = b) /\
  (forall a b : Z, Project.path (VInt a) = Project.path (VInt b) -> a = b) /\
  (forall subpath' slice url,
     path subpath slice = Ok url -> path subpath' slice = Ok url ->
     subpath = subpath') /\
  (forall a : Z,
     path subpath (Some [("project_id", VStr (str_of_int a))]) =
     path subpath (Some [("project_id", VInt a)])).
Proof.
  split_and!.
  - intros a b H.
    change (Ok ("projects/" +:+ str_of_int a +:+ "/" +:+ subpath)
            = @Ok string ("projects/" +:+ str_of_int b +:+ "/" +:+ subpath)) in H.
    injection H as H. apply append_inj_l, append_inj_r in H.
    now apply str_of_int_inj.
  - intros a b H. unfold Project.path in H. cbn [py_str py_repr] in H.
    apply append_inj_l in H. now apply str_of_int_inj.
  - intros subpath' [slice|] url; [|discriminate].
    unfold path. destruct (Dict.getitem "project_id" slice) as [p|];
      cbn [mbind result_bind]; [|discriminate].
    intros [= <-] [= H].
    do 3 apply append_inj_l in H. now symmetry.
  - reflexivity.
Qed.

End Paths.
